(** * maptalks: the canvas layer renderer and its resource cache

    A shallow embedding of [src/renderer/layer/CanvasRenderer.js]: the
    [ResourceCache] class (a keyed store of loaded images with a parallel
    set of failed identifiers) and the [CanvasRenderer] base class (redraw
    scheduling, resource loading, canvas preparation, hit detection).

    Conventions of the embedding.
    - A JavaScript object used as a dictionary is a finite map ([gmap]) of
      its own properties.  Where only [1] is ever stored and the object is
      only tested with [obj[key]], it is the finite set ([gset]) of the
      names at which it reads truthy: the names assigned to, and the names
      an object literal inherits ([Object_prototype]).
    - Resource identifiers are ordinary property names: an assignment to
      the name [__proto__] would replace the prototype of the object
      instead of adding a property, and [addResource] is not followed
      there.
    - Numbers are integers or [NaN]; a flag that is [undefined] or [false]
      in the source is the boolean [false].
    - A method that may raise a [TypeError] returns a [result]. *)

From stdpp Require Import base option list strings pretty gmap fin_maps fin_sets.
From Stdlib Require Import ZArith Lia.

Open Scope Z_scope.

(** ** JavaScript values *)

(** A number: an integer, or [NaN] (what unary [+] gives on [undefined]). *)
Inductive jsnum :=
  | NaN
  | Num (z : Z).

(** A size hint [url[1]] / [url[2]] of a resource descriptor. *)
Inductive hint :=
  | undefined
  | null
  | number (n : jsnum).

#[global] Instance jsnum_eq_dec : EqDecision jsnum.
Proof. solve_decision. Defined.

#[global] Instance hint_eq_dec : EqDecision hint.
Proof. solve_decision. Defined.

(** Unary plus, [+h]. *)
Definition to_number (h : hint) : jsnum :=
  match h with
  | undefined => NaN
  | null => Num 0
  | number n => n
  end.

(** [a > b]: false as soon as one side is [NaN]. *)
Definition js_gt (a b : jsnum) : bool :=
  match a, b with
  | Num x, Num y => y <? x
  | _, _ => false
  end.

(** Truthiness of a size hint: a number other than [0] and [NaN]. *)
Definition truthy (h : hint) : bool :=
  match h with
  | number (Num z) => negb (z =? 0)
  | _ => false
  end.

(** The string an array element contributes to [Array.prototype.join]:
    [undefined] and [null] give the empty string. *)
Definition join_elt (h : hint) : string :=
  match h with
  | undefined | null => ""
  | number NaN => "NaN"
  | number (Num z) => pretty z
  end.

(** [+s[i]] for a string [s]: the numeric value of its [i]-th character,
    [NaN] past the end.  A digit is its value, white space is [0]. *)
Definition char_to_number (c : Ascii.ascii) : jsnum :=
  let n := Z.of_nat (Ascii.nat_of_ascii c) in
  if (48 <=? n) && (n <=? 57) then Num (n - 48)
  else if ((9 <=? n) && (n <=? 13)) || (n =? 32) then Num 0
  else NaN.

(** ** Object literals *)

(** The property names an object literal [{}] inherits from
    [Object.prototype].  Each of them reads as a function or an object,
    so [obj[name]] is truthy for every one of them on every object
    literal, whether or not the name was assigned to. *)
Definition Object_prototype : gset string :=
  list_to_set
    ["constructor"; "hasOwnProperty"; "isPrototypeOf"; "propertyIsEnumerable";
     "toLocaleString"; "toString"; "valueOf"; "__proto__";
     "__defineGetter__"; "__defineSetter__"; "__lookupGetter__";
     "__lookupSetter__"].
Arguments Object_prototype : simpl never.

(** ** Resource descriptors *)

(** A resource descriptor [[url, width, height]], the element type of the
    array returned by [checkResources]. *)
Record UrlArray := {
  url0 : string;
  url1 : hint;
  url2 : hint
}.

#[global] Instance UrlArray_eq_dec : EqDecision UrlArray.
Proof. solve_decision. Defined.

(** The [url] argument of the cache methods: [null], a bare identifier
    string, or a descriptor array (see [_getImgUrl]). *)
Inductive Url :=
  | UrlNull
  | UrlString (s : string)
  | UrlArr (a : UrlArray).

(** [!!url]: [null] and the empty string are falsy, an array never is. *)
Definition url_truthy (url : Url) : bool :=
  match url with
  | UrlNull => false
  | UrlString s => negb (String.eqb s "")
  | UrlArr _ => true
  end.

(** [url[0]] of a truthy [url], as the string handed to [isSVG]. *)
Definition url_at0 (url : Url) : string :=
  match url with
  | UrlNull => ""
  | UrlString s => match s with String c _ => String c "" | EmptyString => "" end
  | UrlArr a => url0 a
  end.

(** [+url[1]] and [+url[2]]. *)
Definition url_num1 (url : Url) : jsnum :=
  match url with
  | UrlNull => NaN
  | UrlString s => from_option char_to_number NaN (String.get 1 s)
  | UrlArr a => to_number (url1 a)
  end.

Definition url_num2 (url : Url) : jsnum :=
  match url with
  | UrlNull => NaN
  | UrlString s => from_option char_to_number NaN (String.get 2 s)
  | UrlArr a => to_number (url2 a)
  end.

(** [url.join('-')] of a descriptor array. *)
Definition join (a : UrlArray) : string :=
  url0 a +:+ "-" +:+ join_elt (url1 a) +:+ "-" +:+ join_elt (url2 a).

(** Whether a string has a hyphen, as every joined descriptor does. *)
Fixpoint has_hyphen (s : string) : bool :=
  match s with
  | EmptyString => false
  | String c s => Ascii.eqb c (Ascii.ascii_of_nat 45) || has_hyphen s
  end.

(** ** Results of methods that can raise *)

Inductive result (A : Type) :=
  | Ok (a : A)
  | Throw (e : string).
Arguments Ok {A} a.
Arguments Throw {A} e.

Definition TypeError : string := "TypeError".

(** ** What the renderer imports from the rest of the library

    [core/util], [core/Browser], [geo/PointExtent] and the 2d context are
    not part of the translated file; their members used here are the
    fields of this class. *)

Record PointExtent := {
  xmin : Z; ymin : Z; xmax : Z; ymax : Z
}.

#[global] Instance PointExtent_eq_dec : EqDecision PointExtent.
Proof. solve_decision. Defined.

Class Imports := {
  (** [isSVG(url)]: [0] when [url] is not an svg, [1] or [2] otherwise. *)
  isSVG : string -> nat;
  (** [IS_NODE]: running under node rather than in a browser. *)
  IS_NODE : bool;
  (** [isArrayHasData(obj)] on an array with the given number of elements. *)
  isArrayHasData : nat -> bool;
  (** [Browser.retina]. *)
  retina : bool;
  (** [a.intersects(b)] of [PointExtent]; [b] may be [undefined]. *)
  intersects : PointExtent -> option PointExtent -> result bool;
  (** [context.getImageData(x, y, 1, 1).data[3]]: the alpha value under
      the point, or the exception a tainted canvas raises. *)
  getImageData : Z -> Z -> result Z
}.

(** An opaque decoded image (or the canvas that replaces it), by identity. *)
Definition Image := nat.

(** ** ResourceCache *)

Module ResourceCache.

Record Entry := {
  image : Image;
  width : jsnum;
  height : jsnum
}.

(** The two object literals of a cache: the own properties of
    [this.resources], and the names [markErrorResource] has assigned [1]
    to in [this._errors]. *)
Record t := {
  resources : gmap string Entry;
  marked : gset string
}.

(** The names at which [this._errors[name]] is truthy: the markers set so
    far, and the names the object inherits. *)
Definition _errors (c : t) : gset string := marked c ∪ Object_prototype.
Arguments _errors : simpl never.

(** [new ResourceCache()]. *)
Definition new : t := {| resources := ∅; marked := ∅ |}.

(** [_getImgUrl(url)], as the property key it is used for. *)
Definition _getImgUrl (url : Url) : string :=
  match url with
  | UrlNull => "null"
  | UrlString s => s
  | UrlArr a => url0 a
  end.

Definition addResource (c : t) (url : UrlArray) (img : Image) : t :=
  {| resources :=
       <[url0 url := {| image := img;
                        width := to_number (url1 url);
                        height := to_number (url2 url) |}]> (resources c);
     marked := marked c |}.

Section with_imports.
Context `{!Imports}.

(** [isResourceLoaded(url, checkSVG)].  The entry is looked up only at a
    name at which [_errors] reads falsy, hence never at an inherited name:
    there [this.resources[imgUrl]] is an own property or [undefined]. *)
Definition isResourceLoaded (c : t) (url : Url) (checkSVG : bool) : bool :=
  if negb (url_truthy url) then false
  else
    let imgUrl := _getImgUrl url in
    if bool_decide (imgUrl ∈ _errors c) then true
    else
      match resources c !! imgUrl with
      | None => false
      | Some img =>
          if checkSVG && negb (Nat.eqb (isSVG (url_at0 url)) 0)
             && (js_gt (url_num1 url) (width img)
                 || js_gt (url_num2 url) (height img))
          then false
          else true
      end.

(** [getImage(url)]: [Ok None] is [null]; reading [.image] of a missing
    entry would raise. *)
Definition getImage (c : t) (url : Url) : result (option Image) :=
  let imgUrl := _getImgUrl url in
  if negb (isResourceLoaded c url false) || bool_decide (imgUrl ∈ _errors c)
  then Ok None
  else
    match resources c !! imgUrl with
    | Some img => Ok (Some (image img))
    | None => Throw TypeError
    end.

End with_imports.

Definition markErrorResource (c : t) (url : Url) : t :=
  {| resources := resources c;
     marked := {[ _getImgUrl url ]} ∪ marked c |}.

(** [merge(res)]: the [for ... in] loop adds every entry of
    [res.resources]; [res] may be [null]. *)
Definition merge_step (c : t) (kv : string * Entry) : t :=
  addResource c
    {| url0 := kv.1; url1 := number (width kv.2); url2 := number (height kv.2) |}
    (image kv.2).

Definition merge (c : t) (res : option t) : t :=
  match res with
  | None => c
  | Some other => foldl merge_step c (map_to_list (resources other))
  end.

End ResourceCache.

(** ** The host map, the layer and the canvas *)

Module Size.
Record t := { width : Z; height : Z }.
End Size.

Module Point.
Record t := { x : Z; y : Z }.
End Point.

(** The map as the renderer observes it: the value each getter returns. *)
Module Map.
Record t := {
  getZoom : Z;
  getPitch : Z;
  isInteracting : bool;
  isMoving : bool;
  isZooming : bool;
  isRotating : bool;
  getSize : Size.t;
  _get2DExtent : PointExtent;
  (** [_containerPointToPoint(new Point(0, 0))] *)
  _containerPointToPoint : Point.t
}.
End Map.

(** A mask geometry: [mask._getPainter().get2DExtent()], and how
    [mask._paint()] ends: it returns, or raises. *)
Module Mask.
Record t := {
  get2DExtent : PointExtent;
  _paint : result unit
}.
End Mask.

Module Layer.
Record Options := {
  forceRenderOnMoving : bool;
  globalCompositeOperation : option string;
  crossOrigin : option string
}.
Record t := {
  getMap : option Map.t;
  isVisible : bool;
  (** [None]: the layer class has no [isEmpty] method. *)
  isEmpty : option bool;
  getMask : option Mask.t;
  options : Options
}.
End Layer.

Module Canvas.
Record t := { width : Z; height : Z }.
End Canvas.

Module Context2D.
Record t := { globalCompositeOperation : option string }.
End Context2D.

(** ** The renderer object *)

Record Renderer := {
  layer : option Layer.t;
  _loadingResource : bool;
  _toRedraw : bool;
  _renderComplete : bool;
  _canvasUpdated : bool;
  _painted : bool;
  _errorThrown : bool;
  _clipped : bool;
  canvas : option Canvas.t;
  context : option Context2D.t;
  _renderZoom : option Z;
  _extent2D : option PointExtent;
  _northWest : option Point.t;
  _maskExtent : option PointExtent;
  resources : option ResourceCache.t
}.

Definition set_loadingResource (v : bool) (r : Renderer) : Renderer :=
  let 'Build_Renderer a _ c d e f g h i j k l m n o := r in
  Build_Renderer a v c d e f g h i j k l m n o.
Definition set_toRedraw (v : bool) (r : Renderer) : Renderer :=
  let 'Build_Renderer a b _ d e f g h i j k l m n o := r in
  Build_Renderer a b v d e f g h i j k l m n o.
Definition set_renderComplete (v : bool) (r : Renderer) : Renderer :=
  let 'Build_Renderer a b c _ e f g h i j k l m n o := r in
  Build_Renderer a b c v e f g h i j k l m n o.
Definition set_canvasUpdated (v : bool) (r : Renderer) : Renderer :=
  let 'Build_Renderer a b c d _ f g h i j k l m n o := r in
  Build_Renderer a b c d v f g h i j k l m n o.
Definition set_painted (v : bool) (r : Renderer) : Renderer :=
  let 'Build_Renderer a b c d e _ g h i j k l m n o := r in
  Build_Renderer a b c d e v g h i j k l m n o.
Definition set_errorThrown (v : bool) (r : Renderer) : Renderer :=
  let 'Build_Renderer a b c d e f _ h i j k l m n o := r in
  Build_Renderer a b c d e f v h i j k l m n o.
Definition set_clipped (v : bool) (r : Renderer) : Renderer :=
  let 'Build_Renderer a b c d e f g _ i j k l m n o := r in
  Build_Renderer a b c d e f g v i j k l m n o.
Definition set_canvas (v : option Canvas.t) (r : Renderer) : Renderer :=
  let 'Build_Renderer a b c d e f g h _ j k l m n o := r in
  Build_Renderer a b c d e f g h v j k l m n o.
Definition set_context (v : option Context2D.t) (r : Renderer) : Renderer :=
  let 'Build_Renderer a b c d e f g h i _ k l m n o := r in
  Build_Renderer a b c d e f g h i v k l m n o.
Definition set_renderZoom (v : option Z) (r : Renderer) : Renderer :=
  let 'Build_Renderer a b c d e f g h i j _ l m n o := r in
  Build_Renderer a b c d e f g h i j v l m n o.
Definition set_extent2D (v : option PointExtent) (r : Renderer) : Renderer :=
  let 'Build_Renderer a b c d e f g h i j k _ m n o := r in
  Build_Renderer a b c d e f g h i j k v m n o.
Definition set_northWest (v : option Point.t) (r : Renderer) : Renderer :=
  let 'Build_Renderer a b c d e f g h i j k l _ n o := r in
  Build_Renderer a b c d e f g h i j k l v n o.
Definition set_maskExtent (v : option PointExtent) (r : Renderer) : Renderer :=
  let 'Build_Renderer a b c d e f g h i j k l m _ o := r in
  Build_Renderer a b c d e f g h i j k l m v o.
Definition set_resources (v : option ResourceCache.t) (r : Renderer) : Renderer :=
  let 'Build_Renderer a b c d e f g h i j k l m n _ := r in
  Build_Renderer a b c d e f g h i j k l m n v.

(** ** Effects

    Calls that leave the renderer are recorded in a trace, oldest first.
    The descriptor arrays handed to [loadResources] are objects of the
    JavaScript heap: [_promiseResource] rewrites their size hints in place,
    so a batch is a list of addresses into [heap]. *)

Inductive Call :=
  | Canvas2D_createCanvas (w h : Z)
  | Canvas2D_clearRect (x y w h : Z)
  | context_scale (sx sy : Z)
  | context_save
  | context_restore
  | context_clip
  | context_getImageData (x y : Z)
  | mask_paint
  | layer_fire (type : string)
  (** [loadImage(img, url)]: the array passed and its contents then. *)
  | loadImage (url : nat) (contents : UrlArray)
  | console_warn (msg : string).

#[global] Instance Call_eq_dec : EqDecision Call.
Proof. solve_decision. Defined.

Record State := {
  self : Renderer;
  heap : list UrlArray;
  trace : list Call
}.

Definition M (A : Type) : Type := State -> result A * State.

#[global] Instance M_ret : MRet M := fun A a st => (Ok a, st).
#[global] Instance M_bind : MBind M := fun A B f m st =>
  match m st with
  | (Ok a, st') => f a st'
  | (Throw e, st') => (Throw e, st')
  end.

Definition throw {A} (e : string) : M A := fun st => (Throw e, st).
Definition this : M Renderer := fun st => (Ok (self st), st).
Definition update (f : Renderer -> Renderer) : M unit := fun st =>
  (Ok tt, {| self := f (self st); heap := heap st; trace := trace st |}).
Definition call (c : Call) : M unit := fun st =>
  (Ok tt, {| self := self st; heap := heap st; trace := trace st ++ [c] |}).
Definition read_heap : M (list UrlArray) := fun st => (Ok (heap st), st).
Definition write_heap (a : nat) (v : UrlArray) : M unit := fun st =>
  (Ok tt, {| self := self st; heap := <[a := v]> (heap st); trace := trace st |}).
(** Lift a value that may be an exception. *)
Definition lift {A} (r : result A) : M A := fun st => (r, st).
(** Call an optional method when the object has it. *)
Definition when_defined (m : option (M unit)) : M unit :=
  match m with
  | Some f => f
  | None => mret tt
  end.

(** A promise created by [loadResources]: resolved at once, or waiting for
    the image whose load was started for [url]. *)
Inductive Promise :=
  | Resolved (url : nat)
  | Pending (url : nat).

(** ** The abstract methods a concrete renderer supplies *)

Class Subclass := {
  checkResources : option (M (list (option nat)));
  draw : M unit;
  drawOnInteracting : option (M unit);
  onAdd : option (M unit);
  onCanvasCreate : option (M unit)
}.

(** ** CanvasRenderer *)

Module CanvasRenderer.
Section methods.
Context `{!Imports} `{!Subclass}.

Definition getMap (r : Renderer) : option Map.t :=
  match layer r with
  | None => None
  | Some l => Layer.getMap l
  end.

Definition needToRedraw (r : Renderer) : result bool :=
  if _loadingResource r then Ok false
  else if _toRedraw r then Ok true
  else if negb (bool_decide (is_Some drawOnInteracting)) then Ok false
  else
    match getMap r, layer r with
    | Some map, Some l =>
        if Map.isInteracting map then
          Ok (negb ((Map.getPitch map =? 0)
                    && Map.isMoving map
                    && negb (Map.isZooming map)
                    && negb (Map.isRotating map)
                    && negb (Layer.forceRenderOnMoving (Layer.options l))))
        else Ok false
    | _, _ => Throw TypeError
    end.

Definition isRenderComplete (r : Renderer) : bool := _renderComplete r.

Definition setToRedraw (r : Renderer) : Renderer := set_toRedraw true r.

Definition setCanvasUpdated (r : Renderer) : Renderer := set_canvasUpdated true r.

Definition isCanvasUpdated (r : Renderer) : bool := _canvasUpdated r.

Definition isBlank (r : Renderer) : bool :=
  if negb (_painted r) then true else false.

(** [this.layer.isEmpty && this.layer.isEmpty()]; raises without a layer. *)
Definition layer_isEmpty (r : Renderer) : result bool :=
  match layer r with
  | None => Throw TypeError
  | Some l => Ok (from_option id false (Layer.isEmpty l))
  end.

Definition hitDetect (point : Point.t) : M bool :=
  r ← this;
  if negb (bool_decide (is_Some (context r))) then mret false
  else
    empty ← lift (layer_isEmpty r);
    if empty || isBlank r || _errorThrown r then mret false
    else
      match getMap r with
      | None => throw TypeError
      | Some map =>
          let size := Map.getSize map in
          if (Point.x point <? 0) || (Size.width size <? Point.x point)
             || (Point.y point <? 0) || (Size.height size <? Point.y point)
          then mret false
          else
            call (context_getImageData (Point.x point) (Point.y point));;
            match getImageData (Point.x point) (Point.y point) with
            | Ok alpha => if 0 <? alpha then mret true else mret false
            | Throw error =>
                (if negb (_errorThrown r)
                 then call (console_warn "hit detect failed with tainted canvas");;
                      update (set_errorThrown true)
                 else mret tt);;
                mret false
            end
      end.

(** [if (h) { h *= 2; }] on a size hint. *)
Definition amplify (h : hint) : hint :=
  match h with
  | number (Num z) => if truthy h then number (Num (z * 2)) else h
  | _ => h
  end.

(** The function [_promiseResource(url)] returns, run by [new Promise]:
    either the resource is there and the promise resolves at once, or an
    image load is started for it. *)
Definition executor (resources : option ResourceCache.t) (url : nat) : M Promise :=
  h ← read_heap;
  match resources, h !! url with
  | Some res, Some a =>
      if ResourceCache.isResourceLoaded res (UrlArr a) true then mret (Resolved url)
      else
        let svg := negb (Nat.eqb (isSVG (url0 a)) 0) && negb IS_NODE in
        let a' := if svg
                  then {| url0 := url0 a;
                          url1 := amplify (url1 a);
                          url2 := amplify (url2 a) |}
                  else a in
        (if svg then write_heap url a' else mret tt);;
        call (loadImage url a');;
        mret (Pending url)
  | _, _ => throw TypeError
  end.

Definition _promiseResource (url : nat) : M (M Promise) :=
  r ← this;
  match layer r with
  | None => throw TypeError
  | Some _ => mret (executor (resources r) url)
  end.

(** The [for] loop of [loadResources], over the entries from the last to
    the first; an entry that is [null] or an empty array is skipped.
    [cache] is the set of names at which the object [cache] reads truthy. *)
Fixpoint loadResources_loop (resources : ResourceCache.t)
    (urls : list (option nat)) (cache : gset string) (promises : list Promise)
    : M (list Promise) :=
  match urls with
  | [] => mret promises
  | None :: rest => loadResources_loop resources rest cache promises
  | Some url :: rest =>
      h ← read_heap;
      match h !! url with
      | None => loadResources_loop resources rest cache promises
      | Some a =>
          if bool_decide (join a ∈ cache)
          then loadResources_loop resources rest cache promises
          else
            let cache := {[ join a ]} ∪ cache in
            if negb (ResourceCache.isResourceLoaded resources (UrlArr a) true)
            then
              ex ← _promiseResource url;
              p ← ex;
              loadResources_loop resources rest cache (promises ++ [p])
            else loadResources_loop resources rest cache promises
      end
  end.

(** [loadResources(resourceUrls)]: the promises handed to [Promise.all]. *)
Definition loadResources (resourceUrls : list (option nat)) : M (list Promise) :=
  r ← this;
  let resources := from_option id ResourceCache.new (resources r) in
  update (set_resources (Some resources));;
  if isArrayHasData (length resourceUrls)
  then loadResources_loop resources (rev resourceUrls) Object_prototype []
  else mret [].

Definition prepareRender : M unit :=
  update (set_renderComplete false);;
  r ← this;
  match getMap r with
  | None => throw TypeError
  | Some map =>
      update (set_renderZoom (Some (Map.getZoom map)));;
      update (set_extent2D (Some (Map._get2DExtent map)));;
      update (set_northWest (Some (Map._containerPointToPoint map)))
  end.

Definition createCanvas : M unit :=
  r ← this;
  if bool_decide (is_Some (canvas r)) then mret tt
  else
    match getMap r, layer r with
    | Some map, Some l =>
        let size := Map.getSize map in
        let ratio := if retina then 2 else 1 in
        let w := ratio * Size.width size in
        let h := ratio * Size.height size in
        call (Canvas2D_createCanvas w h);;
        update (set_canvas (Some {| Canvas.width := w; Canvas.height := h |}));;
        update (set_context
                  (Some {| Context2D.globalCompositeOperation :=
                             match Layer.globalCompositeOperation (Layer.options l) with
                             | Some op => if String.eqb op "" then None else Some op
                             | None => None
                             end |}));;
        (if retina then call (context_scale ratio ratio) else mret tt);;
        when_defined onCanvasCreate
    | _, _ => throw TypeError
    end.

Definition clearCanvas : M unit :=
  r ← this;
  match canvas r with
  | None => mret tt
  | Some c => call (Canvas2D_clearRect 0 0 (Canvas.width c) (Canvas.height c))
  end.

Definition prepareCanvas : M (option PointExtent) :=
  r ← this;
  (if _clipped r
   then
     (if bool_decide (is_Some (context r)) then call context_restore
      else throw TypeError);;
     update (set_clipped false)
   else mret tt);;
  (if negb (bool_decide (is_Some (canvas r))) then createCanvas else clearCanvas);;
  update (set_maskExtent None);;
  r ← this;
  match layer r with
  | None => throw TypeError
  | Some l =>
      match Layer.getMask l with
      | None =>
          call (layer_fire "renderstart");;
          mret None
      | Some mask =>
          let maskExtent2D := Mask.get2DExtent mask in
          update (set_maskExtent (Some maskExtent2D));;
          b ← lift (intersects maskExtent2D (_extent2D r));
          if negb b then
            call (layer_fire "renderstart");;
            mret (Some maskExtent2D)
          else
            (if bool_decide (is_Some (context r)) then call context_save
             else throw TypeError);;
            call mask_paint;;
            lift (Mask._paint mask);;
            call context_clip;;
            update (set_clipped true);;
            call (layer_fire "renderstart");;
            mret (Some maskExtent2D)
      end
  end.

Definition completeRender : M unit :=
  r ← this;
  if bool_decide (is_Some (getMap r)) && bool_decide (is_Some (context r))
  then
    update (set_renderComplete true);;
    call (layer_fire "renderend");;
    update setCanvasUpdated
  else mret tt.

(** [_drawAndRecord()]; the elapsed time it stores in [_drawTime] is read
    from the clock and is left out. *)
Definition _drawAndRecord : M unit :=
  r ← this;
  if negb (bool_decide (is_Some (getMap r))) then mret tt
  else
    update (set_painted true);;
    draw.

Definition _tryToDraw : M unit :=
  update (set_toRedraw false);;
  r ← this;
  empty ← (if negb (bool_decide (is_Some (canvas r))) then lift (layer_isEmpty r)
           else mret false);
  if negb (bool_decide (is_Some (canvas r))) && empty
  then update (set_renderComplete true)
  else
    (if negb (_painted r) then when_defined onAdd else mret tt);;
    _drawAndRecord.

(** [render()], up to the point where it returns; what runs when the
    promise of [loadResources] resolves is [render_then]. *)
Definition render : M unit :=
  prepareRender;;
  r ← this;
  match getMap r, layer r with
  | Some _, Some l =>
      if negb (Layer.isVisible l) then mret tt
      else
        (if negb (bool_decide (is_Some (resources r)))
         then update (set_resources (Some ResourceCache.new))
         else mret tt);;
        match checkResources with
        | Some check =>
            res ← check;
            if (0 <? length res)%nat
            then
              update (set_loadingResource true);;
              loadResources res;;
              mret tt
            else _tryToDraw
        | None => _tryToDraw
        end
  | _, _ => mret tt
  end.

Definition render_then : M unit :=
  update (set_loadingResource false);;
  r ← this;
  if bool_decide (is_Some (layer r))
  then
    call (layer_fire "resourceload");;
    update setToRedraw
  else mret tt.

End methods.
End CanvasRenderer.

(** ** A concrete environment

    One instance of what the renderer imports, in a browser without a
    retina display, and two concrete renderers, used to run the methods on
    examples. *)

Module Sample.

Definition ends_with (suffix s : string) : bool :=
  String.eqb (String.substring (String.length s - String.length suffix)
                               (String.length suffix) s) suffix.

Definition svg (url : string) : nat :=
  if (4 <? String.length url)%nat && ends_with ".svg" url then 1%nat
  else if String.prefix "data:image/svg+xml" url then 2%nat
  else 0%nat.

Definition overlap (a : PointExtent) (b : option PointExtent) : result bool :=
  match b with
  | None => Throw TypeError
  | Some b =>
      Ok (negb ((Z.min (xmax a) (xmax b) <? Z.max (xmin a) (xmin b))
                || (Z.min (ymax a) (ymax b) <? Z.max (ymin a) (ymin b))))
  end.

#[local] Instance browser : Imports := {|
  isSVG := svg;
  IS_NODE := false;
  isArrayHasData := fun n => (0 <? n)%nat;
  retina := false;
  intersects := overlap;
  getImageData := fun _ _ => Ok 0
|}.

(** A renderer with only the required [draw], which paints nothing. *)
#[local] Instance static_renderer : Subclass := {|
  checkResources := None;
  draw := mret tt;
  drawOnInteracting := None;
  onAdd := None;
  onCanvasCreate := None
|}.

(** The same with a [drawOnInteracting] method. *)
#[local] Instance interactive_renderer : Subclass := {|
  checkResources := None;
  draw := mret tt;
  drawOnInteracting := Some (mret tt);
  onAdd := None;
  onCanvasCreate := None
|}.

Definition map : Map.t := {|
  Map.getZoom := 10;
  Map.getPitch := 0;
  Map.isInteracting := false;
  Map.isMoving := false;
  Map.isZooming := false;
  Map.isRotating := false;
  Map.getSize := {| Size.width := 800; Size.height := 600 |};
  Map._get2DExtent := {| xmin := 0; ymin := 0; xmax := 800; ymax := 600 |};
  Map._containerPointToPoint := {| Point.x := 0; Point.y := 0 |}
|}.

Definition panning : Map.t :=
  let 'Map.Build_t z p _ _ zo ro s e n := map in Map.Build_t z p true true zo ro s e n.

Definition zooming : Map.t :=
  let 'Map.Build_t z p _ mo _ ro s e n := map in Map.Build_t z p true mo true ro s e n.

Definition layer_on (m : Map.t) (empty : bool) (mask : option Mask.t) : Layer.t := {|
  Layer.getMap := Some m;
  Layer.isVisible := true;
  Layer.isEmpty := Some empty;
  Layer.getMask := mask;
  Layer.options := {| Layer.forceRenderOnMoving := false;
                      Layer.globalCompositeOperation := None;
                      Layer.crossOrigin := None |}
|}.

(** [new CanvasRenderer(layer)]: the constructor ends in [setToRedraw()]. *)
Definition constructor (l : Layer.t) : Renderer := {|
  layer := Some l;
  _loadingResource := false;
  _toRedraw := true;
  _renderComplete := false;
  _canvasUpdated := false;
  _painted := false;
  _errorThrown := false;
  _clipped := false;
  canvas := None;
  context := None;
  _renderZoom := None;
  _extent2D := None;
  _northWest := None;
  _maskExtent := None;
  resources := None
|}.

(** A renderer that has drawn its layer and waits for the next event. *)
Definition idle (l : Layer.t) : Renderer := set_toRedraw false (constructor l).

(** A renderer with a canvas of the size of the map, painted on. *)
Definition painted (l : Layer.t) : Renderer :=
  set_painted true
    (set_context (Some {| Context2D.globalCompositeOperation := None |})
       (set_canvas (Some {| Canvas.width := 800; Canvas.height := 600 |})
          (idle l))).

(** A mask far outside the extent of [map]. *)
Definition far_mask : Mask.t :=
  {| Mask.get2DExtent := {| xmin := 1000; ymin := 1000; xmax := 1100; ymax := 1100 |};
     Mask._paint := Ok tt |}.

(** A mask inside the extent of [map]. *)
Definition near_mask : Mask.t :=
  {| Mask.get2DExtent := {| xmin := 100; ymin := 100; xmax := 200; ymax := 200 |};
     Mask._paint := Ok tt |}.

Definition start (r : Renderer) (h : list UrlArray) : State :=
  {| self := r; heap := h; trace := [] |}.

End Sample.

(** ** Histories of a cache

    The operations that change a [ResourceCache]; [isResourceLoaded] and
    [getImage] only read it. *)

Inductive CacheOp :=
  | op_addResource (url : UrlArray) (img : Image)
  | op_markErrorResource (url : Url)
  | op_merge (res : option ResourceCache.t).

Definition apply_op (c : ResourceCache.t) (o : CacheOp) : ResourceCache.t :=
  match o with
  | op_addResource url img => ResourceCache.addResource c url img
  | op_markErrorResource url => ResourceCache.markErrorResource c url
  | op_merge res => ResourceCache.merge c res
  end.

(** ** Reading a trace *)

(** The arrays for which an image load was started, in order. *)
Definition fetched (evs : list Call) : list nat :=
  omap (fun c => match c with loadImage url _ => Some url | _ => None end) evs.

(** The identifiers of the image loads started, in order. *)
Definition fetched_ids (evs : list Call) : list string :=
  omap (fun c => match c with loadImage _ a => Some (url0 a) | _ => None end) evs.

(** How often [x] occurs in [l]. *)
Definition occurrences {A} `{EqDecision A} (x : A) (l : list A) : nat :=
  length (filter (fun y => y = x) l).

(** The dedup key [url.join('-')] of the array at address [u] of heap [h]. *)
Definition key_at (h : list UrlArray) (u : nat) : option string :=
  join <$> h !! u.

(** What [prepareCanvas] relies on when it calls the hook [onCanvasCreate]
    of a subclass: the hook returns, leaves the layer, the view extent and
    the clip flag alone, and does not clip the context itself. *)
Definition keeps_clip_state (hook : option (M unit)) : Prop :=
  match hook with
  | None => True
  | Some f =>
      forall st, exists st' evs,
        f st = (Ok tt, st')
        /\ layer (self st') = layer (self st)
        /\ _extent2D (self st') = _extent2D (self st)
        /\ _clipped (self st') = _clipped (self st)
        /\ trace st' = trace st ++ evs
        /\ context_clip ∉ evs
  end.

(** ** The rest of CanvasRenderer

    The methods around the ones above: the life cycle of the canvas
    ([resizeCanvas], [getCanvasImage], [clear], [remove]), the handlers of
    the map events, and what runs when an image load settles.  They read
    further members of the library, collected here as before. *)

Class MoreImports := {
  (** [Browser.edge] and [Browser.ie]. *)
  edge : bool;
  ie : bool;
  (** [isNil(obj)] on a size hint. *)
  isNil : hint -> bool;
  (** [extent.getSize()] of [PointExtent]. *)
  PointExtent_getSize : PointExtent -> Size.t;
  (** [map._pointToContainerPoint(point)]; the point may be [undefined]. *)
  _pointToContainerPoint : Map.t -> option Point.t -> Point.t;
  (** [layer.options['cacheSvgOnCanvas']] and
      [layer.options['defaultIconSize']]. *)
  cacheSvgOnCanvas : Layer.t -> bool;
  defaultIconSize : Layer.t -> Z * Z;
  (** [img.width] and [img.height] of a loaded image. *)
  Image_width : Image -> Z;
  Image_height : Image -> Z;
  (** The canvas [Canvas2D.createCanvas(w, h)] once
      [Canvas2D.image(ctx, img, 0, 0, w, h)] has painted [img] on it. *)
  Canvas2D_image : Image -> hint -> hint -> Image
}.

Definition set_layer (v : option Layer.t) (r : Renderer) : Renderer :=
  let 'Build_Renderer _ b c d e f g h i j k l m n o := r in
  Build_Renderer v b c d e f g h i j k l m n o.

(** What [getCanvasImage] hands to the renderer of the map. *)
Module CanvasImage.
Record t := {
  image : Canvas.t;
  layer : Layer.t;
  point : Point.t;
  size : Size.t
}.
End CanvasImage.

(** The events of [getEvents()]. *)
Inductive MapEvent :=
  | _zoomstart | _zooming | _zoomend
  | _resize
  | _movestart | _moving | _moveend
  | _dragrotatestart | _dragrotating | _dragrotateend
  | _spatialreferencechange.

Module CanvasRendererMore.
Section methods.
Context `{!Imports} `{!Subclass} `{!MoreImports}.
Import CanvasRenderer.

(** [remove()]; [onRemove] is the method of that name of the subclass,
    when it has one. *)
Definition remove (onRemove : option (M unit)) : M unit :=
  when_defined onRemove;;
  update (set_loadingResource false);;
  update (set_northWest None);;
  update (set_canvas None);;
  update (set_context None);;
  update (set_extent2D None);;
  update (set_resources None);;
  update (set_layer None).

Definition getCanvasImage : M (option CanvasImage.t) :=
  update (set_canvasUpdated false);;
  r ← this;
  match getMap r, layer r with
  | Some map, Some l =>
      match canvas r, _extent2D r with
      | Some c, Some extent =>
          if negb (bool_decide (_renderZoom r = Some (Map.getZoom map))) then mret None
          else if isBlank r then mret None
          else if from_option id false (Layer.isEmpty l) then mret None
          else
            mret (Some {| CanvasImage.image := c;
                          CanvasImage.layer := l;
                          CanvasImage.point := _pointToContainerPoint map (_northWest r);
                          CanvasImage.size := PointExtent_getSize extent |})
      | _, _ => mret None
      end
  | _, _ => throw TypeError
  end.

Definition clear : M unit := clearCanvas.

Definition show : M unit := update setToRedraw.

Definition hide : M unit := clear;; update setToRedraw.

Definition setZIndex : M unit := update setToRedraw.

(** [resizeCanvas(canvasSize)]; without an argument the size of the map. *)
Definition resizeCanvas (canvasSize : option Size.t) : M unit :=
  r ← this;
  match canvas r with
  | None => mret tt
  | Some c =>
      size ← match canvasSize with
             | Some s => mret s
             | None =>
                 match getMap r with
                 | Some map => mret (Map.getSize map)
                 | None => throw TypeError
                 end
             end;
      let ratio := if retina then 2 else 1 in
      if (Canvas.width c =? ratio * Size.width size)
         && (Canvas.height c =? ratio * Size.height size)
      then mret tt
      else
        update (set_canvas (Some {| Canvas.width := ratio * Size.width size;
                                    Canvas.height := ratio * Size.height size |}));;
        if retina
        then (if bool_decide (is_Some (context r)) then call (context_scale ratio ratio)
              else throw TypeError)
        else mret tt
  end.

Definition onZoomStart : M unit := mret tt.
Definition onZoomEnd : M unit := update setToRedraw.
Definition onZooming : M unit := mret tt.
Definition onMoveStart : M unit := mret tt.
Definition onMoving : M unit := mret tt.
Definition onMoveEnd : M unit := update setToRedraw.
Definition onResize : M unit :=
  update (set_extent2D None);;
  resizeCanvas None;;
  update setToRedraw.
Definition onDragRotateStart : M unit := mret tt.
Definition onDragRotating : M unit := mret tt.
Definition onDragRotateEnd : M unit := update setToRedraw.
Definition onSpatialReferenceChange : M unit := mret tt.

Definition getEvents (e : MapEvent) : M unit :=
  match e with
  | _zoomstart => onZoomStart
  | _zooming => onZooming
  | _zoomend => onZoomEnd
  | _resize => onResize
  | _movestart => onMoveStart
  | _moving => onMoving
  | _moveend => onMoveEnd
  | _dragrotatestart => onDragRotateStart
  | _dragrotating => onDragRotating
  | _dragrotateend => onDragRotateEnd
  | _spatialreferencechange => onSpatialReferenceChange
  end.

(** [_cacheResource(url, img)].  Under Edge and IE an svg is first painted
    on a canvas of its own, which is stored in its place; the calls that
    paint that canvas are folded into [Canvas2D_image]. *)
Definition _cacheResource (url : nat) (img : Image) : M unit :=
  r ← this;
  h ← read_heap;
  match layer r, resources r with
  | Some l, Some res =>
      match h !! url with
      | None => throw TypeError
      | Some a =>
          let img' :=
            if cacheSvgOnCanvas l && Nat.eqb (isSVG (url0 a)) 1 && (edge || ie)
            then
              let w := if isNil (url1 a)
                       then number (Num (if Image_width img =? 0
                                         then (defaultIconSize l).1
                                         else Image_width img))
                       else url1 a in
              let h := if isNil (url2 a)
                       then number (Num (if Image_height img =? 0
                                         then (defaultIconSize l).2
                                         else Image_height img))
                       else url2 a in
              Canvas2D_image img w h
            else img in
          update (set_resources (Some (ResourceCache.addResource res a img')))
      end
  | _, _ => mret tt
  end.

(** [img.onload] and [img.onabort] of the image whose load [executor]
    started for [url]; both end in [resolve(url)]. *)
Definition img_onload (url : nat) (img : Image) : M unit :=
  _cacheResource url img.

Definition img_onabort (url : nat) (err : option string) : M unit :=
  h ← read_heap;
  match h !! url with
  | None => throw TypeError
  | Some a =>
      call (console_warn ("image loading aborted: " +:+ url0 a));;
      match err with
      | Some e => call (console_warn e)
      | None => mret tt
      end
  end.

End methods.
End CanvasRendererMore.

(** ** More concrete inputs *)

Module SampleMore.
Import Sample.

#[local] Instance more : MoreImports := {|
  edge := false;
  ie := false;
  isNil := fun h => match h with undefined | null => true | number _ => false end;
  PointExtent_getSize := fun e => {| Size.width := xmax e - xmin e;
                                     Size.height := ymax e - ymin e |};
  _pointToContainerPoint := fun _ p => from_option id {| Point.x := 0; Point.y := 0 |} p;
  cacheSvgOnCanvas := fun _ => false;
  defaultIconSize := fun _ => (20, 20);
  Image_width := fun _ => 32;
  Image_height := fun _ => 32;
  Canvas2D_image := fun img _ _ => S img
|}.

(** A browser whose canvas is tainted: reading a pixel raises. *)
#[local] Instance tainted_browser : Imports := {|
  isSVG := svg;
  IS_NODE := false;
  isArrayHasData := fun n => (0 <? n)%nat;
  retina := false;
  intersects := overlap;
  getImageData := fun _ _ => Throw "SecurityError"
|}.

(** A renderer that needs the resource in the first array of the heap. *)
#[local] Instance loading_renderer : Subclass := {|
  checkResources := Some (fun s => (Ok [Some 0%nat], s));
  draw := mret tt;
  drawOnInteracting := None;
  onAdd := None;
  onCanvasCreate := None
|}.

(** A renderer that draws by preparing the canvas and completing the
    render, with nothing in between. *)
#[local] Instance drawing_renderer : Subclass := {|
  checkResources := None;
  draw := @CanvasRenderer.prepareCanvas browser static_renderer
            ≫= fun _ => @CanvasRenderer.completeRender;
  drawOnInteracting := None;
  onAdd := None;
  onCanvasCreate := None
|}.

Definition marker_png : UrlArray :=
  {| url0 := "marker.png"; url1 := number (Num 10); url2 := number (Num 10) |}.

Definition marker_svg : UrlArray :=
  {| url0 := "marker.svg"; url1 := number (Num 10); url2 := number (Num 10) |}.

(** A renderer that has rendered [map] at its current zoom. *)
Definition rendered (l : Layer.t) : Renderer :=
  set_northWest (Some (Map._containerPointToPoint map))
    (set_extent2D (Some (Map._get2DExtent map))
       (set_renderZoom (Some (Map.getZoom map)) (painted l))).

(** A cache holding the svg marker at (10,10), and one with a failed load. *)
Definition svg_cache : ResourceCache.t :=
  ResourceCache.addResource ResourceCache.new marker_svg 7%nat.

Definition failed_cache : ResourceCache.t :=
  ResourceCache.markErrorResource ResourceCache.new (UrlArr marker_png).

(** A heap of two descriptors, and a renderer whose cache holds the second. *)
Definition two_markers : list UrlArray := [marker_png; marker_svg].

Definition with_cache (res : ResourceCache.t) (l : Layer.t) : Renderer :=
  set_resources (Some res) (painted l).

Definition caching : State :=
  start (with_cache svg_cache (layer_on map false None)) two_markers.

(** A renderer before its first [prepareCanvas]: no canvas yet, the view
    extent of [map] recorded, a layer masked by [mask]. *)
Definition first_cycle (mask : Mask.t) : State :=
  start (set_extent2D (Some (Map._get2DExtent map))
           (constructor (layer_on map false (Some mask)))) [].

(** A mask inside the extent of [map] whose painting raises. *)
Definition failing_mask : Mask.t :=
  {| Mask.get2DExtent := Mask.get2DExtent near_mask;
     Mask._paint := Throw "paint" |}.

End SampleMore.

(** The unmatched [context.save()] calls of a trace. *)
Fixpoint open_saves (evs : list Call) : Z :=
  match evs with
  | [] => 0
  | context_save :: evs => open_saves evs + 1
  | context_restore :: evs => open_saves evs - 1
  | _ :: evs => open_saves evs
  end.

(** ** The loads of a batch, without the state

    What the loop of [loadResources] does, read off the batch, the heap as
    it is handed in and the cache alone; the loop is shown to follow it,
    and the properties of a batch are then properties of lists. *)

Section plan.
Context `{!Imports}.

(** The descriptor as [executor] hands it to [loadImage]: in a browser the
    size hints of an svg are doubled first. *)
Definition request_sent (a : UrlArray) : UrlArray :=
  if negb (Nat.eqb (isSVG (url0 a)) 0) && negb IS_NODE
  then {| url0 := url0 a; url1 := CanvasRenderer.amplify (url1 a);
          url2 := CanvasRenderer.amplify (url2 a) |}
  else a.

(** The arrays a load is started for, in the order of the loop. *)
Fixpoint plan (res : ResourceCache.t) (h0 : list UrlArray)
    (urls : list (option nat)) (cache : gset string) : list nat :=
  match urls with
  | [] => []
  | None :: rest => plan res h0 rest cache
  | Some u :: rest =>
      match h0 !! u with
      | None => plan res h0 rest cache
      | Some a =>
          if bool_decide (join a ∈ cache) then plan res h0 rest cache
          else if ResourceCache.isResourceLoaded res (UrlArr a) true
          then plan res h0 rest ({[ join a ]} ∪ cache)
          else u :: plan res h0 rest ({[ join a ]} ∪ cache)
      end
  end.

(** The heap once the arrays [us] have been sent. *)
Definition heap_after (h0 h : list UrlArray) (us : list nat) : list UrlArray :=
  foldl (fun h u => from_option (fun a => <[u := request_sent a]> h) h (h0 !! u)) h us.

(** The [loadImage] calls for the arrays [us]. *)
Definition loads (h0 : list UrlArray) (us : list nat) : list Call :=
  omap (fun u => (fun a => loadImage u (request_sent a)) <$> h0 !! u) us.

End plan.

(** The joined descriptors of the entries [urls] of a batch. *)
Definition seen (h0 : list UrlArray) (urls : list (option nat)) : gset string :=
  list_to_set (omap (key_at h0) (omap id urls)).

(** * Properties of the resource cache *)

Section ResourceCache_facts.
Context `{!Imports}.
Import ResourceCache.

Lemma addResource_errors c url img : _errors (addResource c url img) = _errors c.
Proof. reflexivity. Qed.

Lemma merge_step_entry c kv :
  resources (merge_step c kv) = <[kv.1 := kv.2]> (resources c).
Proof. destruct kv as [p [i w h]]. reflexivity. Qed.

Lemma merge_steps_marked l : forall c, marked (foldl merge_step c l) = marked c.
Proof. induction l as [|kv l IH]; intros c; simpl; [done|]. by rewrite IH. Qed.

Lemma merge_steps_errors l : forall c, _errors (foldl merge_step c l) = _errors c.
Proof. intros c. unfold _errors. by rewrite merge_steps_marked. Qed.

Lemma merge_steps_resources l :
  forall c, resources (foldl merge_step c l) = foldl (fun m kv => <[kv.1 := kv.2]> m) (resources c) l.
Proof.
  induction l as [|kv l IH]; intros c; simpl; [done|].
  by rewrite IH, merge_step_entry.
Qed.

Lemma foldl_insert_lookup (l : list (string * Entry)) :
  forall (m : gmap string Entry) (k : string),
    NoDup l.*1 ->
    foldl (fun m kv => <[kv.1 := kv.2]> m) m l !! k =
      match list_to_map (M := gmap string Entry) l !! k with
      | Some e => Some e
      | None => m !! k
      end.
Proof.
  induction l as [|[p e] l IH]; intros m k Hnd; simpl.
  - by rewrite lookup_empty.
  - apply NoDup_cons in Hnd as [Hp Hnd].
    rewrite IH by done.
    destruct (decide (p = k)) as [->|Hne].
    + rewrite (not_elem_of_list_to_map_1 l k) by done.
      by rewrite !lookup_insert_eq.
    + rewrite !(lookup_insert_ne _ p k) by done. done.
Qed.

Lemma merge_lookup c other k :
  resources (merge c (Some other)) !! k =
    match resources other !! k with
    | Some e => Some e
    | None => resources c !! k
    end.
Proof.
  unfold merge. rewrite merge_steps_resources.
  rewrite foldl_insert_lookup by apply NoDup_fst_map_to_list.
  by rewrite list_to_map_to_list.
Qed.

Lemma markErrorResource_errors c url :
  _errors (markErrorResource c url) = {[ _getImgUrl url ]} ∪ _errors c.
Proof. unfold _errors, markErrorResource; simpl. by rewrite (assoc_L (∪)). Qed.

Lemma errors_apply_op c o : _errors c ⊆ _errors (apply_op c o).
Proof.
  destruct o as [url img|url|[other|]]; simpl; [done| |by rewrite merge_steps_errors|done].
  rewrite markErrorResource_errors. apply union_subseteq_r.
Qed.

Lemma errors_history ops : forall c, _errors c ⊆ _errors (foldl apply_op c ops).
Proof.
  induction ops as [|o ops IH]; intros c; simpl; [done|].
  etrans; [apply (errors_apply_op c o)|apply IH].
Qed.

Lemma getImage_error c url :
  _getImgUrl url ∈ _errors c -> getImage c url = Ok None.
Proof.
  intros Hin. unfold getImage.
  rewrite (bool_decide_eq_true_2 _ Hin). by rewrite orb_true_r.
Qed.

Lemma isResourceLoaded_error c url checkSVG :
  url_truthy url = true -> _getImgUrl url ∈ _errors c ->
  isResourceLoaded c url checkSVG = true.
Proof.
  intros Ht Hin. unfold isResourceLoaded. rewrite Ht; simpl.
  by rewrite (bool_decide_eq_true_2 _ Hin).
Qed.

Lemma markErrorResource_marks c url : _getImgUrl url ∈ _errors (markErrorResource c url).
Proof.
  rewrite markErrorResource_errors. apply elem_of_union. left.
  by apply elem_of_singleton.
Qed.

(** A falsy [url] is never reported as loaded, marked or not. *)
Lemma isResourceLoaded_falsy c url checkSVG :
  url_truthy url = false -> isResourceLoaded c url checkSVG = false.
Proof. intros Hf. unfold isResourceLoaded. by rewrite Hf. Qed.

(** [getImage] never raises: when it reads [.image] the entry is there. *)
Lemma getImage_no_throw c url : exists r, getImage c url = Ok r.
Proof.
  unfold getImage, isResourceLoaded.
  destruct (url_truthy url); simpl; [|by eexists].
  destruct (bool_decide (_getImgUrl url ∈ _errors c)); simpl; [by eexists|].
  destruct (resources c !! _getImgUrl url); simpl; by eexists.
Qed.

(** C4.  For every cache and every descriptor [k] (and every bare
    identifier string other than the empty one), right after
    [markErrorResource(k)] the check [isResourceLoaded(k)] is true, with or
    without the svg size check; marking adds no entry to the success map,
    so this holds when the map has none for [k]. *)
Theorem isResourceLoaded_after_markErrorResource :
  forall (c : ResourceCache.t) (checkSVG : bool),
    (forall k : UrlArray,
        resources (markErrorResource c (UrlArr k)) = resources c
        /\ isResourceLoaded (markErrorResource c (UrlArr k)) (UrlArr k) checkSVG = true)
    /\ (forall s : string,
          s <> "" ->
          resources (markErrorResource c (UrlString s)) = resources c
          /\ isResourceLoaded (markErrorResource c (UrlString s)) (UrlString s) checkSVG = true).
Proof.
  intros c checkSVG. split.
  - intros k. split; [done|].
    apply isResourceLoaded_error; [done|apply markErrorResource_marks].
  - intros s Hs. split; [done|].
    apply isResourceLoaded_error; [|apply markErrorResource_marks].
    simpl. by destruct s.
Qed.

(** C5, as the code has it.  The error table is read before the sizes are
    compared, so the size rule holds for an identifier at which
    [this._errors] reads falsy: no marker was set for it and it is not a
    name the table inherits.  For such an svg identifier, cached by
    [addResource] at size (10,10), the size-aware check is false for a
    request at (20,20) and true for requests at (5,5) and (10,10); in
    general, with stored size (sw,sh) and requested size (rw,rh), it is
    true exactly when [rw <= sw] and [rh <= sh]. *)
Theorem isResourceLoaded_svg_size :
  forall (c : ResourceCache.t) (id : string) (img : Image),
    isSVG id <> 0%nat ->
    id ∉ _errors c ->
    let cached w h :=
      addResource c {| url0 := id; url1 := number (Num w); url2 := number (Num h) |} img in
    let request w h :=
      UrlArr {| url0 := id; url1 := number (Num w); url2 := number (Num h) |} in
    isResourceLoaded (cached 10 10) (request 20 20) true = false
    /\ isResourceLoaded (cached 10 10) (request 5 5) true = true
    /\ isResourceLoaded (cached 10 10) (request 10 10) true = true
    /\ (forall sw sh rw rh,
          isResourceLoaded (cached sw sh) (request rw rh) true
          = (rw <=? sw) && (rh <=? sh)).
Proof.
  intros c id img Hsvg Herr cached request.
  assert (Hgen : forall sw sh rw rh,
            isResourceLoaded (cached sw sh) (request rw rh) true
            = (rw <=? sw) && (rh <=? sh)).
  { intros sw sh rw rh. unfold isResourceLoaded, cached, request; simpl.
    rewrite (bool_decide_eq_false_2 _ Herr).
    rewrite lookup_insert_eq; simpl.
    destruct (Nat.eqb_spec (isSVG id) 0) as [E|_]; [done|]; simpl.
    destruct (Z.ltb_spec sw rw), (Z.ltb_spec sh rh),
             (Z.leb_spec rw sw), (Z.leb_spec rh sh); simpl; try done; lia. }
  repeat split; [by rewrite Hgen..|exact Hgen].
Qed.

(** C6.  After [c.merge(other)] every entry of [other] is an entry of [c]
    under the same identifier (replacing the one [c] had), the other
    entries of [c] are as before, the error set of [c] is unchanged, and so
    an identifier marked only in [other] is not marked in [c].  The error
    set is unchanged in what it reads truthy at and in the markers set. *)
Theorem merge_copies_entries_only :
  forall (c other : ResourceCache.t),
    (forall p e, resources other !! p = Some e ->
                 resources (merge c (Some other)) !! p = Some e)
    /\ (forall p, resources other !! p = None ->
                  resources (merge c (Some other)) !! p = resources c !! p)
    /\ _errors (merge c (Some other)) = _errors c
    /\ (forall p, p ∈ _errors other -> p ∉ _errors c ->
                  p ∉ _errors (merge c (Some other)))
    /\ marked (merge c (Some other)) = marked c.
Proof.
  intros c other. repeat split.
  - intros p e Hp. by rewrite merge_lookup, Hp.
  - intros p Hp. by rewrite merge_lookup, Hp.
  - apply merge_steps_errors.
  - intros p _ Hp. unfold merge. by rewrite merge_steps_errors.
  - apply merge_steps_marked.
Qed.

(** C9.  No operation of the cache removes an error marker; so once
    [markErrorResource(k)] has run, [getImage(k)] is [null] after any
    further sequence of [addResource], [markErrorResource] and [merge]
    calls, in particular after [addResource(k, img)] has stored an entry
    for [k]. *)
Theorem getImage_null_once_marked :
  forall (c : ResourceCache.t) (k : Url),
    (forall c' o, _errors c' ⊆ _errors (apply_op c' o))
    /\ (forall ops, getImage (foldl apply_op (markErrorResource c k) ops) k = Ok None)
    /\ (forall (a : UrlArray) (img : Image),
          let c' := addResource (markErrorResource c (UrlArr a)) a img in
          is_Some (resources c' !! url0 a)
          /\ getImage c' (UrlArr a) = Ok None).
Proof.
  intros c k. split; [apply errors_apply_op|]. split.
  - intros ops. apply getImage_error.
    apply (errors_history ops), markErrorResource_marks.
  - intros a img c'. split.
    + unfold c', addResource; simpl. rewrite lookup_insert_eq. by eexists.
    + apply getImage_error. unfold c'. rewrite addResource_errors.
      apply (markErrorResource_marks c (UrlArr a)).
Qed.

(** ** Further properties of the cache *)

Lemma js_gt_irrefl (n : jsnum) : js_gt n n = false.
Proof. destruct n as [|z]; simpl; [done|]. apply Z.ltb_irrefl. Qed.

Lemma getImage_eq :
  forall (c : ResourceCache.t) (url : Url),
    getImage c url =
      Ok (if url_truthy url && negb (bool_decide (_getImgUrl url ∈ _errors c))
          then image <$> resources c !! _getImgUrl url
          else None).
Proof.
  intros c url. unfold getImage, isResourceLoaded.
  destruct (url_truthy url); simpl; [|done].
  destruct (bool_decide (_getImgUrl url ∈ _errors c)); simpl; [done|].
  by destruct (resources c !! _getImgUrl url).
Qed.

Lemma elem_of_errors c k : k ∈ _errors c <-> k ∈ marked c \/ k ∈ Object_prototype.
Proof. unfold _errors. apply elem_of_union. Qed.

(** When [getImage] returns an image.  It never raises.  It returns the
    image [img] exactly when [url] is truthy, no marker was set for its
    identifier, the identifier is not a name the error table inherits
    (such as [constructor]) and the entry stored under the identifier
    holds [img].  For an inherited name it returns [null] whatever has
    been stored. *)
Theorem getImage_characterised :
  forall (c : ResourceCache.t) (url : Url),
    (exists r, getImage c url = Ok r)
    /\ (forall img : Image,
          getImage c url = Ok (Some img)
          <-> url_truthy url = true
              /\ (_getImgUrl url ∉ marked c)
              /\ (_getImgUrl url ∉ Object_prototype)
              /\ exists e, resources c !! _getImgUrl url = Some e /\ image e = img)
    /\ (_getImgUrl url ∈ Object_prototype -> getImage c url = Ok None).
Proof.
  intros c url. split; [apply getImage_no_throw|]. split.
  - intros img. rewrite getImage_eq.
    destruct (url_truthy url); simpl.
    + destruct (bool_decide_reflect (_getImgUrl url ∈ _errors c)) as [Hin|Hnin]; simpl.
      * split; [discriminate|]. intros (_ & Hm & Hp & _).
        apply elem_of_errors in Hin as [Hin|Hin]; contradiction.
      * split.
        -- intros Heq. split; [done|].
           split; [intros Hm; apply Hnin, elem_of_errors; by left|].
           split; [intros Hp; apply Hnin, elem_of_errors; by right|].
           destruct (resources c !! _getImgUrl url) as [e|]; [|discriminate].
           exists e. split; [done|]. simpl in Heq. congruence.
        -- intros (_ & _ & _ & e & -> & <-). reflexivity.
    + split; [discriminate|]. by intros [? _].
  - intros Hp. apply getImage_error, elem_of_errors. by right.
Qed.


(** The size check only ever turns a positive answer into a negative one:
    a request met with the check is met without it, and a request for an
    svg at a size no larger than one that is met is met as well. *)
Theorem isResourceLoaded_smaller_request :
  forall (c : ResourceCache.t) (id : string) (w h w' h' : Z),
    let request w h :=
      UrlArr {| url0 := id; url1 := number (Num w); url2 := number (Num h) |} in
    isResourceLoaded c (request w h) true = true ->
    w' <= w -> h' <= h ->
    isResourceLoaded c (request w' h') true = true
    /\ isResourceLoaded c (request w h) false = true.
Proof.
  intros c id w h w' h' request Hl Hw Hh.
  unfold isResourceLoaded, request in *; simpl in *.
  destruct (bool_decide (id ∈ _errors c)); [done|].
  destruct (resources c !! id) as [e|]; [|done].
  split; [|done].
  destruct (negb (Nat.eqb (isSVG id) 0)); simpl in *; [|done].
  destruct (width e) as [|sw], (height e) as [|sh]; simpl in *; try done.
  - destruct (Z.ltb_spec sh h), (Z.ltb_spec sh h'); try done; lia.
  - destruct (Z.ltb_spec sw w), (Z.ltb_spec sw w'); simpl in *; try done; lia.
  - destruct (Z.ltb_spec sw w), (Z.ltb_spec sw w'),
             (Z.ltb_spec sh h), (Z.ltb_spec sh h'); simpl in *; try done; lia.
Qed.



(** What is loaded in the cache merged in is loaded afterwards: a [url]
    for which no marker was set in [other] and that [other] reports loaded
    is reported loaded by [c.merge(other)] under the same size check, and
    an image [other] returns is returned by the merged cache unless a
    marker was set for it in [c].  (At a name the error table inherits
    both caches report loaded and return no image.) *)
Theorem merge_transfers_loaded :
  forall (c other : ResourceCache.t) (url : Url) (checkSVG : bool),
    _getImgUrl url ∉ marked other ->
    isResourceLoaded other url checkSVG = true ->
    isResourceLoaded (merge c (Some other)) url checkSVG = true
    /\ (_getImgUrl url ∉ marked c ->
        getImage (merge c (Some other)) url = getImage other url).
Proof.
  intros c other url checkSVG Hmark Hl.
  assert (Hmerge : _errors (merge c (Some other)) = _errors c)
    by apply merge_steps_errors.
  assert (Ht : url_truthy url = true).
  { destruct (url_truthy url) eqn:Ht; [done|].
    by rewrite isResourceLoaded_falsy in Hl. }
  destruct (decide (_getImgUrl url ∈ Object_prototype)) as [Hp|Hp].
  { (* an inherited name reads as marked in every cache *)
    split.
    - apply isResourceLoaded_error; [done|]. apply elem_of_errors. by right.
    - intros _. rewrite !getImage_error; [done|apply elem_of_errors; by right..]. }
  assert (Herr : _getImgUrl url ∉ _errors other).
  { intros Hin. apply elem_of_errors in Hin as [Hin|Hin]; contradiction. }
  split.
  - unfold isResourceLoaded in *. rewrite Ht in *; cbn [negb] in *.
    rewrite (bool_decide_eq_false_2 _ Herr) in Hl.
    destruct (bool_decide (_getImgUrl url ∈ _errors (merge c (Some other)))); [done|].
    rewrite merge_lookup.
    by destruct (resources other !! _getImgUrl url).
  - intros Hmc.
    assert (Hc : _getImgUrl url ∉ _errors c).
    { intros Hin. apply elem_of_errors in Hin as [Hin|Hin]; contradiction. }
    rewrite !getImage_eq, Hmerge.
    rewrite (bool_decide_eq_false_2 _ Herr), (bool_decide_eq_false_2 _ Hc).
    rewrite merge_lookup.
    unfold isResourceLoaded in Hl. rewrite Ht in *; cbn [negb andb] in *.
    rewrite (bool_decide_eq_false_2 _ Herr) in Hl.
    by destruct (resources other !! _getImgUrl url).
Qed.

End ResourceCache_facts.

(** * Properties of the renderer *)

Section CanvasRenderer_facts.
Context `{!Imports} `{!Subclass}.
Import CanvasRenderer.

(** Running a sequence whose first step is known. *)
Lemma bind_ok {A B} (m : M A) (f : A -> M B) (st st0 : State) (a : A) :
  m st = (Ok a, st0) -> (m ≫= f) st = f a st0.
Proof. intros Hm. unfold mbind, M_bind. by rewrite Hm. Qed.

(** ** The redraw decision *)

(** C3.  Whenever the loading-resources flag is set, [needToRedraw()]
    returns false, whatever the other flags, the layer and the map are. *)
Theorem needToRedraw_while_loading :
  forall r : Renderer, _loadingResource r = true -> needToRedraw r = Ok false.
Proof. intros r Hl. unfold needToRedraw. by rewrite Hl. Qed.

Lemma needToRedraw_toRedraw r :
  _loadingResource r = false -> _toRedraw r = true -> needToRedraw r = Ok true.
Proof. intros Hl Ht. unfold needToRedraw. by rewrite Hl, Ht. Qed.

(** Without [drawOnInteracting] only the invalidation flag asks for a
    redraw: the state of the map is not even read. *)
Lemma needToRedraw_static r :
  drawOnInteracting = None -> _loadingResource r = false ->
  needToRedraw r = Ok (_toRedraw r).
Proof.
  intros Hd Hl. unfold needToRedraw. rewrite Hl, Hd.
  destruct (_toRedraw r); [done|].
  rewrite bool_decide_eq_false_2; [done|]. by intros [? ?].
Qed.

(** C2, as the code has it.  While the map is interacting, with no
    invalidation flag, no load outstanding and [forceRenderOnMoving]
    unset: during a pure pan [needToRedraw()] is false; during a zoom
    change it is false for a layer without [drawOnInteracting] and true
    for a layer with it. *)
Theorem needToRedraw_interacting :
  forall (r : Renderer) (l : Layer.t) (map : Map.t),
    layer r = Some l -> Layer.getMap l = Some map ->
    _loadingResource r = false -> _toRedraw r = false ->
    Map.isInteracting map = true ->
    Layer.forceRenderOnMoving (Layer.options l) = false ->
    (Map.getPitch map = 0 -> Map.isMoving map = true ->
     Map.isZooming map = false -> Map.isRotating map = false ->
     needToRedraw r = Ok false)
    /\ (Map.isZooming map = true -> drawOnInteracting = None ->
        needToRedraw r = Ok false)
    /\ (Map.isZooming map = true -> is_Some drawOnInteracting ->
        needToRedraw r = Ok true).
Proof.
  intros r l map Hlayer Hmap Hload Hred Hint Hforce.
  split; [|split].
  - intros Hp Hm Hz Hr. unfold needToRedraw, getMap.
    rewrite Hload, Hred, Hlayer, Hmap, Hint, Hp, Hm, Hz, Hr, Hforce; simpl.
    by destruct (bool_decide (is_Some drawOnInteracting)).
  - intros _ Hd. rewrite needToRedraw_static by done. by rewrite Hred.
  - intros Hz Hd. unfold needToRedraw, getMap.
    rewrite Hload, Hred, Hlayer, Hmap, Hint, Hz, Hforce.
    rewrite (bool_decide_eq_true_2 _ Hd); simpl.
    by rewrite !andb_false_r.
Qed.

(** ** Hit detection *)

(** C10.  For a renderer whose layer is on a map, and a point left of,
    right of, above or below the viewport of that map, [hitDetect(point)]
    returns false and changes nothing: the trace is as before, so
    [getImageData] was not called. *)
Theorem hitDetect_outside_viewport :
  forall (st : State) (map : Map.t) (point : Point.t),
    getMap (self st) = Some map ->
    (Point.x point < 0 \/ Point.x point > Size.width (Map.getSize map)
     \/ Point.y point < 0 \/ Point.y point > Size.height (Map.getSize map)) ->
    hitDetect point st = (Ok false, st).
Proof.
  intros st map point Hmap Hout.
  unfold hitDetect, mbind, M_bind, this, mret, M_ret, lift, layer_isEmpty; simpl.
  destruct (bool_decide (is_Some (context (self st)))); simpl; [|done].
  assert (exists l, layer (self st) = Some l) as [l Hl].
  { unfold getMap in Hmap. destruct (layer (self st)); [by eexists|done]. }
  rewrite Hl.
  destruct (from_option id false (Layer.isEmpty l) || isBlank (self st)
            || _errorThrown (self st)); [done|].
  rewrite Hmap.
  assert ((Point.x point <? 0) || (Size.width (Map.getSize map) <? Point.x point)
          || (Point.y point <? 0) || (Size.height (Map.getSize map) <? Point.y point)
          = true) as ->; [|done].
  rewrite !orb_true_iff, !Z.ltb_lt. lia.
Qed.

(** ** The render-complete flag *)

Lemma tryToDraw_empty_layer (st : State) (l : Layer.t) :
  layer (self st) = Some l -> canvas (self st) = None ->
  Layer.isEmpty l = Some true ->
  _tryToDraw st =
    (Ok tt, {| self := set_renderComplete true (set_toRedraw false (self st));
               heap := heap st; trace := trace st |}).
Proof.
  intros Hl Hc He.
  unfold _tryToDraw, mbind, M_bind, update, this, lift, layer_isEmpty; simpl.
  destruct (self st) as [la ? ? ? ? ? ? ? ca ? ? ? ? ? ?]; simpl in *; subst.
  simpl. by rewrite He.
Qed.

Lemma prepareRender_ok (st : State) (map : Map.t) :
  getMap (self st) = Some map ->
  prepareRender st =
    (Ok tt, {| self := set_northWest (Some (Map._containerPointToPoint map))
                         (set_extent2D (Some (Map._get2DExtent map))
                            (set_renderZoom (Some (Map.getZoom map))
                               (set_renderComplete false (self st))));
               heap := heap st; trace := trace st |}).
Proof.
  intros Hm.
  unfold prepareRender, mbind, M_bind, update, this; simpl.
  destruct (self st) as [[la|] ? ? ? ? ? ? ? ? ? ? ? ? ? ?];
    unfold getMap in *; simpl in *; [|done].
  by rewrite Hm.
Qed.

Lemma prepareRender_no_map (st : State) :
  getMap (self st) = None ->
  prepareRender st =
    (Throw TypeError, {| self := set_renderComplete false (self st);
                         heap := heap st; trace := trace st |}).
Proof.
  intros Hm.
  unfold prepareRender, mbind, M_bind, update, this; simpl.
  destruct (self st) as [[la|] ? ? ? ? ? ? ? ? ? ? ? ? ? ?];
    unfold getMap in *; simpl in *; by rewrite ?Hm.
Qed.

(** C8, as the code has it.  The empty-layer short cut of [_tryToDraw]
    sets the flag: after it [isRenderComplete()] is true although nothing
    was drawn, and so it is after a whole [render()] of a visible empty
    layer without canvas.  [completeRender()] sets the flag exactly when
    the map and the context exist; a [render()] that stops at a hidden
    layer, or raises for want of a map, leaves it false. *)
Theorem renderComplete_flag :
  (forall (st : State) (l : Layer.t),
      layer (self st) = Some l -> canvas (self st) = None ->
      Layer.isEmpty l = Some true ->
      exists st', _tryToDraw st = (Ok tt, st')
                  /\ isRenderComplete (self st') = true
                  /\ _painted (self st') = _painted (self st)
                  /\ canvas (self st') = None
                  /\ trace st' = trace st)
  /\ (forall (st : State) (l : Layer.t) (map : Map.t),
        layer (self st) = Some l -> canvas (self st) = None ->
        Layer.isEmpty l = Some true ->
        Layer.getMap l = Some map -> Layer.isVisible l = true ->
        checkResources = None ->
        exists st', render st = (Ok tt, st')
                    /\ isRenderComplete (self st') = true
                    /\ _painted (self st') = _painted (self st)
                    /\ canvas (self st') = None
                    /\ trace st' = trace st)
  /\ (forall (st : State),
        exists st', completeRender st = (Ok tt, st')
                    /\ isRenderComplete (self st') =
                         if bool_decide (is_Some (getMap (self st)))
                            && bool_decide (is_Some (context (self st)))
                         then true else isRenderComplete (self st))
  /\ (forall (st : State) (l : Layer.t) (map : Map.t),
        layer (self st) = Some l -> Layer.getMap l = Some map ->
        Layer.isVisible l = false ->
        exists st', render st = (Ok tt, st')
                    /\ isRenderComplete (self st') = false
                    /\ trace st' = trace st)
  /\ (forall (st : State),
        getMap (self st) = None ->
        exists st', render st = (Throw TypeError, st')
                    /\ isRenderComplete (self st') = false
                    /\ trace st' = trace st).
Proof.
  repeat apply conj.
  - intros st l Hl Hc He. rewrite (tryToDraw_empty_layer st l) by done.
    eexists; split; [done|]; simpl.
    by destruct (self st).
  - intros st l map Hl Hc He Hm Hv Hcr.
    assert (getMap (self st) = Some map) as Hgm by (unfold getMap; by rewrite Hl).
    unfold render, mbind at 1, M_bind at 1.
    rewrite (prepareRender_ok st map Hgm).
    unfold mbind, M_bind, this; simpl.
    destruct (self st) as [la ? ? ? ? ? ? ? ca ? ? ? ? ? re]; simpl in *; subst.
    unfold getMap; simpl. rewrite Hm, Hv, Hcr; simpl.
    destruct re; simpl.
    + erewrite tryToDraw_empty_layer; [|done..]. by eexists.
    + erewrite tryToDraw_empty_layer; [|done..]. by eexists.
  - intros st. unfold completeRender, mbind, M_bind, this, update, call; simpl.
    destruct (bool_decide (is_Some (getMap (self st)))
              && bool_decide (is_Some (context (self st)))); simpl.
    + eexists; split; [done|]. by destruct (self st).
    + by eexists.
  - intros st l map Hl Hm Hv.
    assert (getMap (self st) = Some map) as Hgm by (unfold getMap; by rewrite Hl).
    unfold render, mbind at 1, M_bind at 1.
    rewrite (prepareRender_ok st map Hgm).
    unfold mbind, M_bind, this; simpl.
    destruct (self st) as [la ? ? ? ? ? ? ? ca ? ? ? ? ? re]; simpl in *; subst.
    unfold getMap; simpl. rewrite Hm, Hv; simpl. by eexists.
  - intros st Hgm.
    unfold render, mbind at 1, M_bind at 1.
    rewrite (prepareRender_no_map st Hgm).
    eexists; split; [done|]. by destruct (self st).
Qed.

(** ** Preparing the canvas *)

Ltac no_clip :=
  repeat (apply not_elem_of_cons; split; [discriminate|]);
  first [apply not_elem_of_nil | assumption].

Lemma createCanvas_frame (st : State) (l : Layer.t) :
  layer (self st) = Some l -> is_Some (Layer.getMap l) ->
  canvas (self st) = None -> keeps_clip_state onCanvasCreate ->
  exists st' evs,
    createCanvas st = (Ok tt, st')
    /\ layer (self st') = layer (self st)
    /\ _extent2D (self st') = _extent2D (self st)
    /\ _clipped (self st') = _clipped (self st)
    /\ trace st' = trace st ++ evs
    /\ context_clip ∉ evs.
Proof.
  intros Hl [map Hm] Hc Hk.
  unfold createCanvas, mbind, M_bind, this, update, call, when_defined, getMap; simpl.
  rewrite Hc, Hl, Hm; simpl.
  unfold keeps_clip_state in Hk.
  destruct retina, onCanvasCreate as [f|]; simpl;
    try match goal with
        | |- context [f ?s] =>
            destruct (Hk s) as (st' & evs & -> & Hl' & He' & Hc' & Ht' & Hn');
            simpl in *; exists st'
        end;
    try (eexists; eexists; split; [reflexivity|]);
    try (eexists; split; [reflexivity|]);
    rewrite ?Hl', ?He', ?Hc', ?Ht'; simpl;
    rewrite <- ?app_assoc; simpl;
    (destruct (self st); simpl in *; subst;
     repeat split; try reflexivity); no_clip.
Qed.

Lemma clearCanvas_frame (st : State) :
  exists evs,
    clearCanvas st = (Ok tt, {| self := self st; heap := heap st; trace := trace st ++ evs |})
    /\ context_clip ∉ evs.
Proof.
  unfold clearCanvas, mbind, M_bind, this, call; simpl.
  destruct (canvas (self st)) as [c|]; simpl.
  - eexists; split; [reflexivity|]. no_clip.
  - exists []. rewrite app_nil_r. split; [by destruct st|]. no_clip.
Qed.

(** C7.  When the layer has a mask whose 2d extent does not intersect the
    view extent [_extent2D], [prepareCanvas()] returns the extent of the
    mask, leaves the clip flag unset and records the extent in
    [_maskExtent]; no [context.clip()] call is made on the way.  The
    renderer is taken in a state where the call cannot raise: a clip left
    from the previous cycle has a context to restore, and when the canvas
    is still to be created the layer is on a map and the subclass hook
    [onCanvasCreate] leaves the clip state alone. *)
Theorem prepareCanvas_mask_outside_view :
  forall (st : State) (l : Layer.t) (mask : Mask.t),
    layer (self st) = Some l ->
    Layer.getMask l = Some mask ->
    intersects (Mask.get2DExtent mask) (_extent2D (self st)) = Ok false ->
    (_clipped (self st) = true -> is_Some (context (self st))) ->
    (canvas (self st) = None ->
     is_Some (Layer.getMap l) /\ keeps_clip_state onCanvasCreate) ->
    exists st' evs,
      prepareCanvas st = (Ok (Some (Mask.get2DExtent mask)), st')
      /\ _clipped (self st') = false
      /\ _maskExtent (self st') = Some (Mask.get2DExtent mask)
      /\ trace st' = trace st ++ evs
      /\ context_clip ∉ evs.
Proof.
  intros st l mask Hl Hmask Hint Hctx Hcan.
  unfold prepareCanvas.
  rewrite (bind_ok this _ st st (self st)) by done.
  (* undo the clip of the previous cycle *)
  assert (exists st1 evs1,
    (if _clipped (self st)
     then (if bool_decide (is_Some (context (self st)))
           then call context_restore else throw TypeError);;
          update (set_clipped false)
     else mret tt) st = (Ok tt, st1)
    /\ layer (self st1) = Some l
    /\ _extent2D (self st1) = _extent2D (self st)
    /\ canvas (self st1) = canvas (self st)
    /\ _clipped (self st1) = false
    /\ trace st1 = trace st ++ evs1
    /\ context_clip ∉ evs1) as (st1 & evs1 & Hrun1 & Hl1 & He1 & Hc1 & Hcl1 & Ht1 & Hn1).
  { destruct (_clipped (self st)) eqn:Hcl.
    - rewrite (bool_decide_eq_true_2 _ (Hctx eq_refl)).
      eexists; exists [context_restore]; split; [reflexivity|]; simpl.
      destruct (self st); simpl in *. repeat split; try done. no_clip.
    - exists st, []. rewrite app_nil_r. repeat split; try done. no_clip. }
  rewrite (bind_ok _ _ st st1 tt Hrun1).
  (* create the canvas, or clear it *)
  assert (exists st2 evs2,
    (if negb (bool_decide (is_Some (canvas (self st))))
     then createCanvas else clearCanvas) st1 = (Ok tt, st2)
    /\ layer (self st2) = Some l
    /\ _extent2D (self st2) = _extent2D (self st)
    /\ _clipped (self st2) = false
    /\ trace st2 = trace st1 ++ evs2
    /\ context_clip ∉ evs2) as (st2 & evs2 & Hrun2 & Hl2 & He2 & Hcl2 & Ht2 & Hn2).
  { destruct (canvas (self st)) as [c|] eqn:Hc.
    - rewrite bool_decide_eq_true_2 by (by eexists); simpl.
      destruct (clearCanvas_frame st1) as (evs2 & -> & Hn2).
      eexists; exists evs2; split; [reflexivity|]. by simpl.
    - rewrite bool_decide_eq_false_2 by (by intros [? ?]); simpl.
      destruct (Hcan eq_refl) as [Hmap Hhook].
      destruct (createCanvas_frame st1 l Hl1 Hmap) as
        (st2 & evs2 & -> & Hl2 & He2 & Hcl2 & Ht2 & Hn2); [congruence|done|].
      exists st2, evs2. split; [done|]. repeat split; congruence. }
  rewrite (bind_ok _ _ st1 st2 tt Hrun2).
  (* the mask lies outside the view *)
  unfold mbind, M_bind, update, this, lift, call; simpl.
  destruct (self st2) as [la ? ? ? ? ? ? cl ? ? ? ex ? ? ?] eqn:Hself; simpl in *; subst.
  rewrite Hmask, Hint; simpl.
  eexists; exists (evs1 ++ evs2 ++ [layer_fire "renderstart"]).
  split; [reflexivity|]; simpl. repeat split.
  - rewrite Ht2, Ht1. by rewrite <- !app_assoc.
  - rewrite !not_elem_of_app. repeat split; try done. no_clip.
Qed.

(** ** Loading resources *)

Lemma executor_run (res : option ResourceCache.t) (u : nat) (st : State) (a : UrlArray) :
  heap st !! u = Some a ->
  executor res u st =
    match res with
    | None => (Throw TypeError, st)
    | Some r =>
        if ResourceCache.isResourceLoaded r (UrlArr a) true then (Ok (Resolved u), st)
        else
          let svg := negb (Nat.eqb (isSVG (url0 a)) 0) && negb IS_NODE in
          let a' := if svg
                    then {| url0 := url0 a; url1 := amplify (url1 a);
                            url2 := amplify (url2 a) |}
                    else a in
          (Ok (Pending u),
           {| self := self st;
              heap := if svg then <[u := a']> (heap st) else heap st;
              trace := trace st ++ [loadImage u a'] |})
    end.
Proof.
  intros Hu. unfold executor, mbind, M_bind, read_heap, write_heap, call; simpl.
  rewrite Hu. destruct res as [r|]; [|done].
  destruct (ResourceCache.isResourceLoaded r (UrlArr a) true); [done|].
  by destruct (negb (Nat.eqb (isSVG (url0 a)) 0) && negb IS_NODE).
Qed.

Lemma loadResources_loop_some (res : ResourceCache.t) (u : nat)
    (rest : list (option nat)) (cache : gset string) (promises : list Promise)
    (st : State) :
  loadResources_loop res (Some u :: rest) cache promises st =
    match heap st !! u with
    | None => loadResources_loop res rest cache promises st
    | Some a =>
        if bool_decide (join a ∈ cache)
        then loadResources_loop res rest cache promises st
        else if negb (ResourceCache.isResourceLoaded res (UrlArr a) true)
        then
          match layer (self st) with
          | None => (Throw TypeError, st)
          | Some _ =>
              match executor (resources (self st)) u st with
              | (Ok p, st') =>
                  loadResources_loop res rest ({[ join a ]} ∪ cache) (promises ++ [p]) st'
              | (Throw e, st') => (Throw e, st')
              end
          end
        else loadResources_loop res rest ({[ join a ]} ∪ cache) promises st
    end.
Proof.
  simpl. unfold mbind, M_bind, read_heap, _promiseResource, this; simpl.
  destruct (heap st !! u) as [a|]; [|done].
  destruct (bool_decide (join a ∈ cache)); [done|].
  destruct (negb (ResourceCache.isResourceLoaded res (UrlArr a) true)); [|done].
  unfold mbind, M_bind; simpl.
  by destruct (layer (self st)).
Qed.

Lemma omap_id_cons_some {A} (u : A) (l : list (option A)) :
  omap id (Some u :: l) = u :: omap id l.
Proof. reflexivity. Qed.

Lemma loadResources_loop_fetches (h0 : list UrlArray) (res : ResourceCache.t) :
  forall (urls : list (option nat)) (cache : gset string)
         (promises : list Promise) (st : State),
    NoDup (omap id urls) ->
    (forall u, u ∈ omap id urls -> heap st !! u = h0 !! u) ->
    exists evs,
      trace (loadResources_loop res urls cache promises st).2 = trace st ++ evs
      /\ (forall u, u ∈ fetched evs ->
            u ∈ omap id urls
            /\ exists k, key_at h0 u = Some k /\ k ∉ cache)
      /\ NoDup (key_at h0 <$> fetched evs).
Proof.
  induction urls as [|[u|] rest IH]; intros cache promises st Hnd Hheap.
  - exists []. simpl. rewrite app_nil_r. split; [done|]. split; [|constructor].
    intros u Hu. by apply elem_of_nil in Hu.
  - rewrite omap_id_cons_some in Hnd, Hheap.
    apply NoDup_cons in Hnd as [Hu Hnd].
    assert (Hrest : forall v, v ∈ omap id rest -> heap st !! v = h0 !! v).
    { intros v Hv. apply Hheap. by right. }
    assert (Hskip : forall cache' promises',
              cache ⊆ cache' ->
              exists evs,
                trace (loadResources_loop res rest cache' promises' st).2 = trace st ++ evs
                /\ (forall v, v ∈ fetched evs ->
                      v ∈ omap id (Some u :: rest)
                      /\ exists k, key_at h0 v = Some k /\ k ∉ cache)
                /\ NoDup (key_at h0 <$> fetched evs)).
    { intros cache' promises' Hsub.
      destruct (IH cache' promises' st Hnd Hrest) as (evs & Ht & Hf & Hk).
      exists evs. split; [done|]. split; [|done].
      intros v Hv. destruct (Hf v Hv) as (Hin & k & Hkv & Hkc).
      split; [by right|]. exists k. split; [done|].
      intros Hk'. by apply Hkc, Hsub. }
    rewrite loadResources_loop_some.
    destruct (heap st !! u) as [a|] eqn:Ha; [|by apply Hskip].
    destruct (bool_decide (join a ∈ cache)) eqn:Hin; [by apply Hskip|].
    apply bool_decide_eq_false in Hin.
    destruct (negb (ResourceCache.isResourceLoaded res (UrlArr a) true));
      [|apply Hskip, union_subseteq_r].
    assert (Hstop : exists evs,
              trace st = trace st ++ evs
              /\ (forall v, v ∈ fetched evs ->
                    v ∈ omap id (Some u :: rest)
                    /\ exists k, key_at h0 v = Some k /\ k ∉ cache)
              /\ NoDup (key_at h0 <$> fetched evs)).
    { exists []. rewrite app_nil_r. split; [done|]. split; [|constructor].
      intros v Hv. by apply elem_of_nil in Hv. }
    destruct (layer (self st)); [|exact Hstop].
    rewrite (executor_run _ u st a Ha).
    destruct (resources (self st)) as [r|]; [|exact Hstop].
    destruct (ResourceCache.isResourceLoaded r (UrlArr a) true);
      [apply Hskip, union_subseteq_r|].
    cbv zeta.
    set (svg := negb (Nat.eqb (isSVG (url0 a)) 0) && negb IS_NODE).
    set (a' := if svg then _ else a).
    set (st' := {| self := self st; heap := _; trace := _ |}).
    destruct (IH ({[ join a ]} ∪ cache) (promises ++ [Pending u]) st' Hnd)
      as (evs & Ht & Hf & Hk).
    { intros v Hv. unfold st'; simpl.
      destruct svg; [|by apply Hrest].
      rewrite list_lookup_insert_ne; [by apply Hrest|].
      intros ->. done. }
    assert (Hkey : key_at h0 u = Some (join a)).
    { unfold key_at. rewrite <- (Hheap u) by (by left). by rewrite Ha. }
    exists (loadImage u a' :: evs). split; [|split].
    + rewrite Ht. unfold st'; simpl. by rewrite <- app_assoc.
    + intros v Hv. simpl in Hv. apply elem_of_cons in Hv as [->|Hv].
      * split; [by left|]. by exists (join a).
      * destruct (Hf v Hv) as (Hin' & k & Hkv & Hkc).
        split; [by right|]. exists k. split; [done|].
        intros Hk'. apply Hkc, elem_of_union. by right.
    + simpl. apply NoDup_cons. split; [|done].
      intros Hdup. apply list_elem_of_fmap in Hdup as (v & Hv1 & Hv2).
      destruct (Hf v Hv2) as (_ & k & Hkv & Hkc).
      rewrite <- Hv1, Hkey in Hkv. injection Hkv as <-.
      apply Hkc, elem_of_union. left. by apply elem_of_singleton.
  - simpl. destruct (IH cache promises st Hnd Hheap) as (evs & Ht & Hf & Hk).
    by exists evs.
Qed.

Lemma occurrences_not_elem {A} `{EqDecision A} (x : A) (l : list A) :
  x ∉ l -> occurrences x l = 0%nat.
Proof.
  unfold occurrences. induction l as [|y l IH]; intros Hx; [done|].
  apply not_elem_of_cons in Hx as [Hne Hx].
  rewrite filter_cons_False by congruence. by apply IH.
Qed.

Lemma NoDup_occurrences {A} `{EqDecision A} (x : A) (l : list A) :
  NoDup l -> (occurrences x l <= 1)%nat.
Proof.
  induction 1 as [|y l Hy Hnd IH]; [unfold occurrences; simpl; lia|].
  unfold occurrences in *. rewrite filter_cons.
  destruct (decide (y = x)) as [->|Hne]; [|done].
  simpl. fold (occurrences x l). rewrite occurrences_not_elem by done. lia.
Qed.

(** C1, as the code has it.  [loadResources] removes duplicates by the
    joined descriptor [url.join('-')], the identifier together with both
    size hints, not by the identifier alone.  For a batch whose entries
    are distinct array objects: every image load it starts is for an entry
    of the batch, and for every joined descriptor at most one load is
    started among the entries that carry it.  The count is over the loads
    recorded in the trace, whether or not a later step raises. *)
Theorem loadResources_dedup_by_joined_descriptor :
  forall (st : State) (batch : list (option nat)),
    NoDup (omap id batch) ->
    exists evs,
      trace (loadResources batch st).2 = trace st ++ evs
      /\ (forall u, u ∈ fetched evs -> Some u ∈ batch)
      /\ (forall key : string,
            (occurrences (Some key) (key_at (heap st) <$> fetched evs) <= 1)%nat).
Proof.
  intros st batch Hnd.
  unfold loadResources.
  rewrite (bind_ok this _ st st (self st)) by done.
  cbv zeta.
  set (res := from_option id ResourceCache.new (resources (self st))).
  set (st1 := {| self := set_resources (Some res) (self st);
                 heap := heap st; trace := trace st |}).
  rewrite (bind_ok (update (set_resources (Some res))) _ st st1 tt) by done.
  destruct (isArrayHasData (length batch)).
  - destruct (loadResources_loop_fetches (heap st) res (rev batch) Object_prototype [] st1)
      as (evs & Ht & Hf & Hk).
    { by rewrite <- Permutation_rev. }
    { done. }
    exists evs. split; [done|]. split.
    + intros u Hu. destruct (Hf u Hu) as [Hin _].
      rewrite <- Permutation_rev in Hin.
      apply list_elem_of_omap in Hin as (x & Hx & Hxu). simpl in Hxu. by subst.
    + intros key. by apply NoDup_occurrences.
  - exists []. simpl. rewrite app_nil_r. split; [done|]. split.
    + intros u Hu. by apply elem_of_nil in Hu.
    + intros key. unfold occurrences. simpl. lia.
Qed.

(** ** More on hit detection *)

Lemma hitDetect_eq :
  forall (st : State) (map : Map.t) (l : Layer.t) (point : Point.t),
    layer (self st) = Some l -> Layer.getMap l = Some map ->
    let px := Point.x point in
    let py := Point.y point in
    let inside := (0 <=? px) && (px <=? Size.width (Map.getSize map))
                  && (0 <=? py) && (py <=? Size.height (Map.getSize map)) in
    let readable := bool_decide (is_Some (context (self st)))
                    && negb (from_option id false (Layer.isEmpty l))
                    && _painted (self st) && negb (_errorThrown (self st)) in
    hitDetect point st =
      if readable && inside then
        match getImageData px py with
        | Ok alpha =>
            (Ok (0 <? alpha),
             {| self := self st; heap := heap st;
                trace := trace st ++ [context_getImageData px py] |})
        | Throw _ =>
            (Ok false,
             {| self := set_errorThrown true (self st); heap := heap st;
                trace := trace st ++ [context_getImageData px py;
                                      console_warn "hit detect failed with tainted canvas"] |})
        end
      else (Ok false, st).
Proof.
  intros st map l point Hl Hm px py inside readable.
  unfold hitDetect, mbind, M_bind, this, mret, M_ret, lift, layer_isEmpty, call,
    update, getMap, isBlank, readable, inside; simpl.
  rewrite Hl, Hm.
  destruct (bool_decide (is_Some (context (self st)))); simpl; [|done].
  destruct (from_option id false (Layer.isEmpty l)); simpl; [done|].
  destruct (_painted (self st)); simpl; [|done].
  destruct (_errorThrown (self st)) eqn:He; simpl; [done|].
  fold px py.
  destruct (Z.ltb_spec px 0), (Z.leb_spec 0 px); try lia; simpl; [done|].
  destruct (Z.ltb_spec (Size.width (Map.getSize map)) px),
           (Z.leb_spec px (Size.width (Map.getSize map))); try lia; simpl; [done|].
  destruct (Z.ltb_spec py 0), (Z.leb_spec 0 py); try lia; simpl; [done|].
  destruct (Z.ltb_spec (Size.height (Map.getSize map)) py),
           (Z.leb_spec py (Size.height (Map.getSize map))); try lia; simpl; [done|].
  destruct (getImageData px py) as [alpha|e]; simpl.
  - by destruct (0 <? alpha).
  - by rewrite <- app_assoc.
Qed.

(** After a read that raised, no pixel is read again.  The failing call
    returns false, warns once and sets [_errorThrown]; from then on every
    [hitDetect], at whatever point, returns false and leaves the state and
    the trace as they are. *)
Theorem hitDetect_taint_is_sticky :
  forall (st : State) (map : Map.t) (l : Layer.t) (p : Point.t) (e : string),
    layer (self st) = Some l -> Layer.getMap l = Some map ->
    is_Some (context (self st)) ->
    from_option id false (Layer.isEmpty l) = false ->
    _painted (self st) = true -> _errorThrown (self st) = false ->
    0 <= Point.x p <= Size.width (Map.getSize map) ->
    0 <= Point.y p <= Size.height (Map.getSize map) ->
    getImageData (Point.x p) (Point.y p) = Throw e ->
    exists st',
      hitDetect p st = (Ok false, st')
      /\ _errorThrown (self st') = true
      /\ trace st' = trace st ++ [context_getImageData (Point.x p) (Point.y p);
                                  console_warn "hit detect failed with tainted canvas"]
      /\ forall q : Point.t, hitDetect q st' = (Ok false, st').
Proof.
  intros st map l p e Hl Hm Hc Hne Hp Ht Hx Hy He.
  rewrite (hitDetect_eq st map l p Hl Hm); cbv zeta.
  rewrite (bool_decide_eq_true_2 _ Hc), Hne, Hp, Ht, He; simpl.
  destruct (Z.leb_spec 0 (Point.x p)); [|lia].
  destruct (Z.leb_spec (Point.x p) (Size.width (Map.getSize map))); [|lia].
  destruct (Z.leb_spec 0 (Point.y p)); [|lia].
  destruct (Z.leb_spec (Point.y p) (Size.height (Map.getSize map))); [|lia].
  simpl. eexists. split; [reflexivity|]. simpl.
  split; [by destruct (self st)|]. split; [done|].
  intros q.
  rewrite (hitDetect_eq _ map l q); cbv zeta; simpl.
  - assert (_errorThrown (set_errorThrown true (self st)) = true) as ->
      by (by destruct (self st)).
    by rewrite !andb_false_r.
  - by destruct (self st).
  - done.
Qed.

(** ** More on preparing the canvas *)

Lemma open_saves_app (a b : list Call) :
  open_saves (a ++ b) = open_saves a + open_saves b.
Proof.
  induction a as [|c a IH]; simpl; [lia|].
  destruct c; rewrite ?IH; lia.
Qed.

(** [prepareCanvas] in a state where its first steps cannot raise: a clip
    left from the previous cycle has a context to restore, and a canvas
    still to be created is created for a layer on a map by a renderer
    without [onCanvasCreate] hook.  [pre] are the calls made before the
    mask is looked at and [r1] is the renderer then. *)
Lemma prepareCanvas_run (st : State) (l : Layer.t) :
  layer (self st) = Some l ->
  (_clipped (self st) = true -> is_Some (context (self st))) ->
  (canvas (self st) = None -> is_Some (Layer.getMap l) /\ onCanvasCreate = None) ->
  exists (r1 : Renderer) (pre : list Call),
    _clipped r1 = false
    /\ (is_Some (context r1) <->
        canvas (self st) = None \/ is_Some (context (self st)))
    /\ (context_save ∉ pre) /\ (context_clip ∉ pre) /\ (mask_paint ∉ pre)
    /\ (context_restore ∈ pre <-> _clipped (self st) = true)
    /\ open_saves pre = (if _clipped (self st) then -1 else 0)
    /\ let after (r : Renderer) (evs : list Call) :=
         {| self := r; heap := heap st; trace := trace st ++ pre ++ evs |} in
       prepareCanvas st =
         match Layer.getMask l with
         | None => (Ok None, after (set_maskExtent None r1) [layer_fire "renderstart"])
         | Some mask =>
             let ext := Mask.get2DExtent mask in
             let r := set_maskExtent (Some ext) r1 in
             match intersects ext (_extent2D (self st)) with
             | Throw e => (Throw e, after r [])
             | Ok false => (Ok (Some ext), after r [layer_fire "renderstart"])
             | Ok true =>
                 if bool_decide (is_Some (context r1)) then
                   match Mask._paint mask with
                   | Ok _ =>
                       (Ok (Some ext),
                        after (set_clipped true r)
                              [context_save; mask_paint; context_clip;
                               layer_fire "renderstart"])
                   | Throw e => (Throw e, after r [context_save; mask_paint])
                   end
                 else (Throw TypeError, after r [])
             end
         end.
Proof.
  intros Hl Hcl Hcan.
  destruct st as [[la b1 b2 b3 b4 b5 b6 cl ca cx rz ex nw me re] hp tr];
    simpl in *; subst la.
  destruct ca as [c|].
  - (* the canvas is there and is cleared *)
    exists (Build_Renderer (Some l) b1 b2 b3 b4 b5 b6 false (Some c) cx rz ex nw me re).
    exists ((if cl then [context_restore] else [])
            ++ [Canvas2D_clearRect 0 0 (Canvas.width c) (Canvas.height c)]).
    split; [done|]. split; [simpl; split; [by right|by intros [?|?]]|].
    split; [destruct cl; simpl; no_clip|].
    split; [destruct cl; simpl; no_clip|].
    split; [destruct cl; simpl; no_clip|].
    split.
    { destruct cl; simpl; split; try done.
      - intros _. by left.
      - intros Hx. apply elem_of_cons in Hx as [Hx|Hx]; [discriminate|].
        by apply elem_of_nil in Hx. }
    split; [by destruct cl|].
    unfold prepareCanvas, clearCanvas, mbind, M_bind, this, update, call, lift,
      mret, M_ret, throw; simpl.
    destruct cl; simpl.
    + destruct (Hcl eq_refl) as [ctx ->]; simpl.
      destruct (Layer.getMask l) as [mask|]; simpl;
        [destruct (intersects (Mask.get2DExtent mask) ex) as [[|]|e]; simpl;
         [destruct (Mask._paint mask) as [[]|e]; simpl|..]|];
        rewrite <- ?app_assoc; reflexivity.
    + destruct (Layer.getMask l) as [mask|]; simpl;
        [destruct (intersects (Mask.get2DExtent mask) ex) as [[|]|e]; simpl;
         [destruct cx as [ctx|]; simpl;
          [destruct (Mask._paint mask) as [[]|e]; simpl|]|..]|];
        rewrite <- ?app_assoc; reflexivity.
  - (* the canvas is created *)
    destruct (Hcan eq_refl) as [[map Hmap] Hhook].
    set (ratio := if retina then 2 else 1).
    set (w := ratio * Size.width (Map.getSize map)).
    set (h := ratio * Size.height (Map.getSize map)).
    set (ctx := {| Context2D.globalCompositeOperation :=
                     match Layer.globalCompositeOperation (Layer.options l) with
                     | Some op => if String.eqb op "" then None else Some op
                     | None => None
                     end |}).
    exists (Build_Renderer (Some l) b1 b2 b3 b4 b5 b6 false
              (Some {| Canvas.width := w; Canvas.height := h |}) (Some ctx)
              rz ex nw me re).
    exists ((if cl then [context_restore] else [])
            ++ Canvas2D_createCanvas w h
               :: (if retina then [context_scale 2 2] else [])).
    split; [done|]. split; [simpl; split; [by left|by eexists]|].
    split; [destruct cl, retina; simpl; no_clip|].
    split; [destruct cl, retina; simpl; no_clip|].
    split; [destruct cl, retina; simpl; no_clip|].
    split.
    { destruct cl; simpl; split; try done.
      - intros _. by left.
      - intros Hx. apply elem_of_cons in Hx as [Hx|Hx]; [discriminate|].
        destruct retina; simpl in Hx;
          repeat (apply elem_of_cons in Hx as [Hx|Hx]; [discriminate|]);
          by apply elem_of_nil in Hx. }
    split; [by destruct cl, retina|].
    unfold prepareCanvas, createCanvas, getMap, when_defined, mbind, M_bind, this,
      update, call, lift, mret, M_ret, throw; simpl.
    rewrite Hhook. unfold w, h, ratio.
    destruct cl; simpl.
    + destruct (Hcl eq_refl) as [ctx0 ->]; simpl. rewrite Hmap; simpl.
      destruct retina; simpl;
        (destruct (Layer.getMask l) as [mask|]; simpl;
         [destruct (intersects (Mask.get2DExtent mask) ex) as [[|]|e]; simpl;
          [destruct (Mask._paint mask) as [[]|e]; simpl|..]|]);
        rewrite <- ?app_assoc; reflexivity.
    + rewrite Hmap; simpl.
      destruct retina; simpl;
        (destruct (Layer.getMask l) as [mask|]; simpl;
         [destruct (intersects (Mask.get2DExtent mask) ex) as [[|]|e]; simpl;
          [destruct (Mask._paint mask) as [[]|e]; simpl|..]|]);
        rewrite <- ?app_assoc; reflexivity.
Qed.

(** Without a mask nothing is clipped, on the cycle that creates the
    canvas as on every later one.  In a state where [prepareCanvas] cannot
    raise (a clip left from the previous cycle has a context to restore;
    a canvas still to be created is created for a layer on a map by a
    renderer without [onCanvasCreate] hook), it returns [null], undoes the
    clip of the previous cycle exactly when there is one, creates or
    clears the canvas, forgets the mask extent and fires [renderstart]
    last; it makes no [save], [clip] or mask-painting call. *)
Theorem prepareCanvas_without_mask :
  forall (st : State) (l : Layer.t),
    layer (self st) = Some l -> Layer.getMask l = None ->
    (_clipped (self st) = true -> is_Some (context (self st))) ->
    (canvas (self st) = None -> is_Some (Layer.getMap l) /\ onCanvasCreate = None) ->
    exists st' evs,
      prepareCanvas st = (Ok None, st')
      /\ _clipped (self st') = false
      /\ _maskExtent (self st') = None
      /\ trace st' = trace st ++ evs ++ [layer_fire "renderstart"]
      /\ (context_save ∉ evs) /\ (context_clip ∉ evs) /\ (mask_paint ∉ evs)
      /\ (context_restore ∈ evs <-> _clipped (self st) = true).
Proof.
  intros st l Hl Hm Hcl Hcan.
  destruct (prepareCanvas_run st l Hl Hcl Hcan)
    as (r1 & pre & Hc1 & _ & Hs & Hc & Hp & Hr & _ & Hrun).
  cbv zeta in Hrun. rewrite Hm in Hrun.
  eexists; exists pre. split; [exact Hrun|]. cbn [self trace].
  split; [by destruct r1|]. split; [by destruct r1|]. done.
Qed.

(** With a mask that intersects the view the canvas is clipped by it, on
    the cycle that creates the canvas as on every later one.  In a state
    where [prepareCanvas] cannot raise (a context exists whenever the clip
    flag is set or a canvas exists; a canvas still to be created is
    created for a layer on a map by a renderer without [onCanvasCreate]
    hook; [mask._paint()] returns), it returns the extent of the mask,
    records it, sets the clip flag, and ends with [save], painting the
    mask, [clip] and the [renderstart] event, in this order, with no other
    [save] or [clip] before. *)
Theorem prepareCanvas_clips_to_mask :
  forall (st : State) (l : Layer.t) (mask : Mask.t),
    layer (self st) = Some l -> Layer.getMask l = Some mask ->
    (_clipped (self st) = true -> is_Some (context (self st))) ->
    (is_Some (canvas (self st)) -> is_Some (context (self st))) ->
    (canvas (self st) = None -> is_Some (Layer.getMap l) /\ onCanvasCreate = None) ->
    intersects (Mask.get2DExtent mask) (_extent2D (self st)) = Ok true ->
    Mask._paint mask = Ok tt ->
    exists st' evs,
      prepareCanvas st = (Ok (Some (Mask.get2DExtent mask)), st')
      /\ _clipped (self st') = true
      /\ _maskExtent (self st') = Some (Mask.get2DExtent mask)
      /\ trace st' = trace st ++ evs ++ [context_save; mask_paint; context_clip;
                                         layer_fire "renderstart"]
      /\ (context_save ∉ evs) /\ (context_clip ∉ evs).
Proof.
  intros st l mask Hl Hm Hcl Hctx Hcan Hi Hpaint.
  destruct (prepareCanvas_run st l Hl Hcl Hcan)
    as (r1 & pre & Hc1 & Hx & Hs & Hc & _ & _ & _ & Hrun).
  cbv zeta in Hrun. rewrite Hm, Hi, Hpaint in Hrun.
  rewrite bool_decide_eq_true_2 in Hrun.
  - eexists; exists pre. split; [exact Hrun|]. cbn [self trace].
    split; [by destruct r1|]. split; [by destruct r1|]. done.
  - apply Hx. destruct (canvas (self st)) as [c|] eqn:Hcv; [right|by left].
    apply Hctx. by eexists.
Qed.

(** Saves and restores over the render cycles.  Take a state whose trace
    has one unmatched [save] exactly when the clip flag is set, and where
    the first steps of [prepareCanvas] cannot raise (as above).  When
    [mask._paint()] returns, or is not reached, the same holds after
    [prepareCanvas], whether it returns or raises (in [intersects], or for
    want of a context to save).  When [mask._paint()] is reached and
    raises, [prepareCanvas] raises what it raised and leaves the [save]
    made just before unmatched, with the clip flag unset. *)
Theorem prepareCanvas_keeps_saves_balanced :
  forall (st : State) (l : Layer.t),
    layer (self st) = Some l ->
    (_clipped (self st) = true -> is_Some (context (self st))) ->
    (canvas (self st) = None -> is_Some (Layer.getMap l) /\ onCanvasCreate = None) ->
    open_saves (trace st) = (if _clipped (self st) then 1 else 0) ->
    let st' := (prepareCanvas st).2 in
    let reached mask :=
      Layer.getMask l = Some mask
      /\ intersects (Mask.get2DExtent mask) (_extent2D (self st)) = Ok true
      /\ (canvas (self st) = None \/ is_Some (context (self st))) in
    ((forall mask, reached mask -> Mask._paint mask = Ok tt) ->
     open_saves (trace st') = (if _clipped (self st') then 1 else 0))
    /\ (forall mask e,
          reached mask -> Mask._paint mask = Throw e ->
          (prepareCanvas st).1 = Throw e
          /\ open_saves (trace st') = 1
          /\ _clipped (self st') = false).
Proof.
  intros st l Hl Hcl Hcan Hbal st' reached.
  destruct (prepareCanvas_run st l Hl Hcl Hcan)
    as (r1 & pre & Hc1 & Hx & _ & _ & _ & _ & Hpre & Hrun).
  cbv zeta in Hrun. unfold st'. clear st'.
  assert (Hzero : open_saves (trace st ++ pre) = 0).
  { rewrite open_saves_app, Hbal, Hpre. destruct (_clipped (self st)); lia. }
  split.
  - intros Hok. rewrite Hrun.
    destruct (Layer.getMask l) as [mask|] eqn:Hm.
    + destruct (intersects (Mask.get2DExtent mask) (_extent2D (self st)))
        as [[|]|e] eqn:Hi.
      * destruct (bool_decide_reflect (is_Some (context r1))) as [Hsome|Hnone].
        -- rewrite (Hok mask) by (split; [done|]; split; [done|]; by apply Hx).
           cbn [snd self trace]. rewrite app_assoc, open_saves_app, Hzero.
           by destruct r1.
        -- cbn [snd self trace]. rewrite app_nil_r, Hzero.
           destruct r1; simpl in *; by subst.
      * cbn [snd self trace]. rewrite app_assoc, open_saves_app, Hzero.
        destruct r1; simpl in *; by subst.
      * cbn [snd self trace]. rewrite app_nil_r, Hzero.
        destruct r1; simpl in *; by subst.
    + cbn [snd self trace]. rewrite app_assoc, open_saves_app, Hzero.
      destruct r1; simpl in *; by subst.
  - intros mask e (Hm & Hi & Hsome) Hpaint. rewrite Hrun, Hm, Hi, Hpaint.
    rewrite bool_decide_eq_true_2 by (by apply Hx).
    cbn [fst snd self trace]. rewrite app_assoc, open_saves_app, Hzero.
    split; [done|]. split; [done|]. destruct r1; simpl in *; by subst.
Qed.

(** ** More on loading resources *)

Lemma request_sent_url0 (a : UrlArray) : url0 (request_sent a) = url0 a.
Proof. unfold request_sent. by destruct (_ && _). Qed.

Lemma heap_after_cons (h0 h : list UrlArray) (u : nat) (us : list nat) (a : UrlArray) :
  h0 !! u = Some a ->
  heap_after h0 h (u :: us) = heap_after h0 (<[u := request_sent a]> h) us.
Proof. intros Hu. unfold heap_after; simpl. by rewrite Hu. Qed.

Lemma loads_cons (h0 : list UrlArray) (u : nat) (us : list nat) (a : UrlArray) :
  h0 !! u = Some a -> loads h0 (u :: us) = loadImage u (request_sent a) :: loads h0 us.
Proof. intros Hu. unfold loads; simpl. by rewrite Hu. Qed.

(** With a layer and its cache in place, the loop does what [plan] says. *)
Lemma loadResources_loop_plan (h0 : list UrlArray) (res : ResourceCache.t) (l : Layer.t) :
  forall (urls : list (option nat)) (cache : gset string)
         (promises : list Promise) (st : State),
    layer (self st) = Some l -> resources (self st) = Some res ->
    NoDup (omap id urls) ->
    (forall u, u ∈ omap id urls -> heap st !! u = h0 !! u) ->
    loadResources_loop res urls cache promises st =
      (Ok (promises ++ (Pending <$> plan res h0 urls cache)),
       {| self := self st;
          heap := heap_after h0 (heap st) (plan res h0 urls cache);
          trace := trace st ++ loads h0 (plan res h0 urls cache) |}).
Proof.
  induction urls as [|[u|] rest IH]; intros cache promises st Hl Hr Hnd Hheap.
  - simpl. rewrite !app_nil_r. by destruct st.
  - rewrite omap_id_cons_some in Hnd, Hheap.
    apply NoDup_cons in Hnd as [Hu Hnd].
    assert (Hrest : forall v, v ∈ omap id rest -> heap st !! v = h0 !! v).
    { intros v Hv. apply Hheap. by right. }
    rewrite loadResources_loop_some. cbn [plan].
    rewrite (Hheap u) by (by left).
    destruct (h0 !! u) as [a|] eqn:Ha; [|by apply IH].
    destruct (bool_decide (join a ∈ cache)); [by apply IH|].
    destruct (ResourceCache.isResourceLoaded res (UrlArr a) true) eqn:Hload;
      cbn [negb]; [by apply IH|].
    rewrite Hl.
    assert (Hst : heap st !! u = Some a) by (rewrite (Hheap u); [done|by left]).
    rewrite (executor_run _ u st a Hst), Hr, Hload.
    cbv beta iota zeta. fold (request_sent a).
    set (svg := negb (Nat.eqb (isSVG (url0 a)) 0) && negb IS_NODE).
    assert (Hins : (if svg then <[u := request_sent a]> (heap st) else heap st)
                   = <[u := request_sent a]> (heap st)).
    { unfold request_sent. fold svg. destruct svg; [done|].
      symmetry. by apply list_insert_id. }
    rewrite Hins.
    rewrite IH; try done.
    + cbn [self heap trace].
      rewrite (heap_after_cons h0 _ u _ a Ha), (loads_cons h0 u _ a Ha).
      rewrite <- !app_assoc. reflexivity.
    + intros v Hv. cbn [heap].
      assert (v <> u) by (by intros ->).
      rewrite list_lookup_insert_ne by done. by apply Hrest.
  - simpl. by apply IH.
Qed.

Lemma plan_elem (res : ResourceCache.t) (h0 : list UrlArray) :
  forall (urls : list (option nat)) (cache : gset string) (u : nat),
    u ∈ plan res h0 urls cache ->
    u ∈ omap id urls
    /\ exists a, h0 !! u = Some a /\ (join a ∉ cache)
                 /\ ResourceCache.isResourceLoaded res (UrlArr a) true = false.
Proof.
  induction urls as [|[v|] rest IH]; intros cache u Hu; simpl in Hu.
  - by apply elem_of_nil in Hu.
  - rewrite omap_id_cons_some.
    assert (Hrec : forall cache', cache ⊆ cache' ->
              u ∈ plan res h0 rest cache' ->
              u ∈ v :: omap id rest
              /\ exists a, h0 !! u = Some a /\ (join a ∉ cache)
                   /\ ResourceCache.isResourceLoaded res (UrlArr a) true = false).
    { intros cache' Hsub Hin. destruct (IH cache' u Hin) as (H1 & a & H2 & H3 & H4).
      split; [by right|]. exists a. repeat split; try done.
      intros Hc. by apply H3, Hsub. }
    destruct (h0 !! v) as [a|] eqn:Ha; [|by apply (Hrec cache)].
    destruct (bool_decide (join a ∈ cache)) eqn:Hc; [by apply (Hrec cache)|].
    apply bool_decide_eq_false in Hc.
    destruct (ResourceCache.isResourceLoaded res (UrlArr a) true) eqn:Hload.
    + apply (Hrec _ (union_subseteq_r _ _) Hu).
    + apply elem_of_cons in Hu as [->|Hu].
      * split; [by left|]. by exists a.
      * apply (Hrec _ (union_subseteq_r _ _) Hu).
  - simpl. by apply IH.
Qed.

Lemma seen_cons_some (h0 : list UrlArray) (u : nat) (urls : list (option nat)) :
  seen h0 (Some u :: urls)
  = match key_at h0 u with
    | Some k => {[ k ]} ∪ seen h0 urls
    | None => seen h0 urls
    end.
Proof. unfold seen; simpl. by destruct (key_at h0 u). Qed.

Lemma plan_app (res : ResourceCache.t) (h0 : list UrlArray) :
  forall (pre post : list (option nat)) (cache : gset string),
    plan res h0 (pre ++ post) cache
    = plan res h0 pre cache ++ plan res h0 post (cache ∪ seen h0 pre).
Proof.
  induction pre as [|[v|] pre IH]; intros post cache.
  - simpl. unfold seen; simpl. by rewrite union_empty_r_L.
  - rewrite seen_cons_some. unfold key_at. cbn [app plan].
    destruct (h0 !! v) as [a|] eqn:Ha; cbn [fmap option_fmap option_map]; [|apply IH].
    destruct (bool_decide (join a ∈ cache)) eqn:Hc.
    + apply bool_decide_eq_true in Hc. rewrite IH. do 2 f_equal.
      apply set_eq. intros k. rewrite !elem_of_union, elem_of_singleton.
      split; [tauto|]. intros [?|[->|?]]; tauto.
    + assert (Heq : ({[ join a ]} ∪ cache) ∪ seen h0 pre
                    = cache ∪ ({[ join a ]} ∪ seen h0 pre)).
      { apply set_eq. intros k. rewrite !elem_of_union. tauto. }
      destruct (ResourceCache.isResourceLoaded res (UrlArr a) true);
        rewrite IH, Heq; reflexivity.
  - apply IH.
Qed.

(** A joined descriptor has a hyphen and the inherited names have none:
    the object [cache] of [loadResources] never reads truthy at a joined
    descriptor that was not assigned to. *)
Lemma has_hyphen_app (s t : string) :
  has_hyphen (s +:+ t) = has_hyphen s || has_hyphen t.
Proof.
  induction s as [|c s IH]; simpl; [done|]. by rewrite IH, orb_assoc.
Qed.

Lemma join_not_inherited (a : UrlArray) : join a ∉ Object_prototype.
Proof.
  assert (Hj : has_hyphen (join a) = true).
  { unfold join. rewrite !has_hyphen_app. simpl. by rewrite orb_true_r. }
  unfold Object_prototype. rewrite elem_of_list_to_set.
  intros Hin.
  repeat (apply elem_of_cons in Hin as [Hin|Hin];
          [rewrite Hin in Hj; discriminate Hj|]).
  by apply elem_of_nil in Hin.
Qed.

(** The run of [loadResources] for a renderer with a layer. *)
Lemma loadResources_run (st : State) (l : Layer.t) (batch : list (option nat)) :
  layer (self st) = Some l -> NoDup (omap id batch) ->
  let res := from_option id ResourceCache.new (resources (self st)) in
  let us := if isArrayHasData (length batch)
            then plan res (heap st) (rev batch) Object_prototype else [] in
  loadResources batch st =
    (Ok (Pending <$> us),
     {| self := set_resources (Some res) (self st);
        heap := heap_after (heap st) (heap st) us;
        trace := trace st ++ loads (heap st) us |}).
Proof.
  intros Hl Hnd res us. unfold loadResources.
  rewrite (bind_ok this _ st st (self st)) by done.
  cbv zeta. fold res.
  set (st1 := {| self := set_resources (Some res) (self st);
                 heap := heap st; trace := trace st |}).
  rewrite (bind_ok (update (set_resources (Some res))) _ st st1 tt) by done.
  unfold us. destruct (isArrayHasData (length batch)).
  - rewrite (loadResources_loop_plan (heap st) res l); try done.
    + unfold st1; simpl. by destruct (self st).
    + unfold st1; simpl. by destruct (self st).
    + by rewrite <- Permutation_rev.
  - simpl. rewrite app_nil_r. reflexivity.
Qed.

Lemma fetched_loads (res : ResourceCache.t) (h0 : list UrlArray) (us : list nat) :
  (forall u, u ∈ us -> is_Some (h0 !! u)) ->
  fetched (loads h0 us) = us /\ length (loads h0 us) = length us.
Proof.
  induction us as [|u us IH]; intros Hus; [done|].
  destruct (Hus u) as [a Ha]; [by left|].
  rewrite (loads_cons h0 u us a Ha). simpl.
  destruct IH as [-> ->]; [|done].
  intros v Hv. apply Hus. by right.
Qed.

Lemma heap_after_length (h0 : list UrlArray) (us : list nat) :
  forall h, length (heap_after h0 h us) = length h.
Proof.
  induction us as [|u us IH]; intros h; [done|].
  unfold heap_after in *; simpl. rewrite IH.
  destruct (h0 !! u); simpl; [apply length_insert|done].
Qed.

Lemma heap_after_lookup (h0 : list UrlArray) (us : list nat) :
  forall (h : list UrlArray) (v : nat),
    length h = length h0 ->
    heap_after h0 h us !! v
    = if bool_decide (v ∈ us) then request_sent <$> h0 !! v else h !! v.
Proof.
  induction us as [|u us IH]; intros h v Hlen.
  - by rewrite bool_decide_eq_false_2 by apply not_elem_of_nil.
  - destruct (h0 !! u) as [a|] eqn:Ha.
    + rewrite (heap_after_cons h0 h u us a Ha).
      rewrite IH by (by rewrite length_insert).
      repeat case_bool_decide; try done.
      * exfalso. match goal with H : v ∉ u :: us |- _ => apply H end. by right.
      * match goal with H : v ∈ u :: us |- _ =>
          apply elem_of_cons in H as [->|?]; [|done] end.
        rewrite list_lookup_insert_eq, Ha; [done|].
        rewrite Hlen. by apply lookup_lt_Some in Ha.
      * rewrite list_lookup_insert_ne; [done|].
        intros ->. match goal with H : v ∉ v :: us |- _ => apply H end. by left.
    + assert (heap_after h0 h (u :: us) = heap_after h0 h us) as ->
        by (unfold heap_after; simpl; by rewrite Ha).
      rewrite IH by done.
      repeat case_bool_decide; try done.
      * exfalso. match goal with H : v ∉ u :: us |- _ => apply H end. by right.
      * match goal with H : v ∈ u :: us |- _ =>
          apply elem_of_cons in H as [->|?]; [|done] end.
        rewrite Ha. simpl. apply lookup_ge_None. rewrite Hlen.
        by apply lookup_ge_None.
Qed.

Lemma elem_of_seen (h0 : list UrlArray) (urls : list (option nat)) (k : string) :
  k ∈ seen h0 urls <-> exists v, v ∈ omap id urls /\ key_at h0 v = Some k.
Proof.
  unfold seen. rewrite elem_of_list_to_set, list_elem_of_omap. done.
Qed.

Lemma elem_of_loads (h0 : list UrlArray) (us : list nat) (u : nat) (x : UrlArray) :
  loadImage u x ∈ loads h0 us <->
  u ∈ us /\ exists a, h0 !! u = Some a /\ x = request_sent a.
Proof.
  unfold loads. rewrite list_elem_of_omap. split.
  - intros (v & Hv & Hx). destruct (h0 !! v) as [a|] eqn:Ha; simpl in Hx; [|done].
    injection Hx as -> <-. split; [done|]. by exists a.
  - intros (Hu & a & Ha & ->). exists u. split; [done|]. by rewrite Ha.
Qed.

(** With a layer, [loadResources] does not raise, and what it hands to
    [Promise.all] mirrors the image loads it started: one pending promise
    per [loadImage] call, in the same order, and nothing else in the
    trace.  Of the renderer only the [resources] field is touched, to
    create the cache when there is none. *)
Theorem loadResources_promises_match_loads :
  forall (st : State) (l : Layer.t) (batch : list (option nat)),
    layer (self st) = Some l -> NoDup (omap id batch) ->
    exists evs st',
      loadResources batch st = (Ok (Pending <$> fetched evs), st')
      /\ trace st' = trace st ++ evs
      /\ length evs = length (fetched evs)
      /\ self st' = set_resources
                      (Some (from_option id ResourceCache.new (resources (self st))))
                      (self st).
Proof.
  intros st l batch Hl Hnd.
  rewrite (loadResources_run st l batch Hl Hnd). cbv zeta.
  set (res := from_option id ResourceCache.new (resources (self st))).
  set (us := if isArrayHasData (length batch) then _ else []).
  destruct (fetched_loads res (heap st) us) as [Hf Hlen].
  { intros u Hu. unfold us in Hu. destruct (isArrayHasData (length batch)).
    - apply plan_elem in Hu as (_ & a & Ha & _). by eexists.
    - by apply elem_of_nil in Hu. }
  eexists. eexists. rewrite Hf. split; [reflexivity|].
  split; [done|]. split; [exact Hlen|done].
Qed.

(** [loadResources] starts a load only for what the cache does not
    satisfy: every array it loads is reported not loaded by the size-aware
    check.  In particular an identifier with an error marker is never
    loaded again. *)
Theorem loadResources_loads_only_unmet :
  forall (st : State) (l : Layer.t) (batch : list (option nat)),
    layer (self st) = Some l -> NoDup (omap id batch) ->
    let res := from_option id ResourceCache.new (resources (self st)) in
    exists evs,
      trace (loadResources batch st).2 = trace st ++ evs
      /\ (forall u, u ∈ fetched evs ->
            exists a, heap st !! u = Some a
                      /\ ResourceCache.isResourceLoaded res (UrlArr a) true = false)
      /\ (forall u a, heap st !! u = Some a ->
            url0 a ∈ ResourceCache._errors res -> u ∉ fetched evs).
Proof.
  intros st l batch Hl Hnd res.
  rewrite (loadResources_run st l batch Hl Hnd). cbv zeta. fold res.
  set (us := if isArrayHasData (length batch) then _ else []).
  assert (Hus : forall u, u ∈ us ->
            exists a, heap st !! u = Some a
                      /\ ResourceCache.isResourceLoaded res (UrlArr a) true = false).
  { intros u Hu. unfold us in Hu. destruct (isArrayHasData (length batch)).
    - apply plan_elem in Hu as (_ & a & Ha & _ & Hload). by exists a.
    - by apply elem_of_nil in Hu. }
  destruct (fetched_loads res (heap st) us) as [Hf _].
  { intros u Hu. destruct (Hus u Hu) as (a & Ha & _). by eexists. }
  eexists. split; [reflexivity|]. rewrite Hf. split; [exact Hus|].
  intros u a Ha Herr Hu. destruct (Hus u Hu) as (a' & Ha' & Hload).
  rewrite Ha in Ha'. injection Ha' as <-.
  unfold ResourceCache.isResourceLoaded in Hload; simpl in Hload.
  by rewrite (bool_decide_eq_true_2 _ Herr) in Hload.
Qed.

(** Of the entries of a batch that share a joined descriptor only the last
    one counts.  Take a renderer with a layer and a batch whose entries
    are distinct array objects (the same array twice is another matter:
    its hints are doubled in place between the two visits).  If no entry
    after [u] carries the joined descriptor of [u], then [u] is loaded
    exactly when the size-aware check of the cache rejects it; and no
    entry before [u] with that joined descriptor is loaded. *)
Theorem loadResources_last_occurrence_decides :
  forall (st : State) (l : Layer.t) (before after : list (option nat))
         (u : nat) (a : UrlArray),
    let batch := before ++ Some u :: after in
    let res := from_option id ResourceCache.new (resources (self st)) in
    layer (self st) = Some l -> NoDup (omap id batch) ->
    isArrayHasData (length batch) = true ->
    heap st !! u = Some a ->
    (forall v, v ∈ omap id after -> key_at (heap st) v <> Some (join a)) ->
    exists evs,
      trace (loadResources batch st).2 = trace st ++ evs
      /\ (u ∈ fetched evs <->
          ResourceCache.isResourceLoaded res (UrlArr a) true = false)
      /\ (forall v, v ∈ omap id before -> key_at (heap st) v = Some (join a) ->
            v ∉ fetched evs).
Proof.
  intros st l before after u a batch res Hl Hnd Hdata Ha Hafter.
  rewrite (loadResources_run st l batch Hl Hnd). cbv zeta. fold res.
  rewrite Hdata.
  set (h0 := heap st) in *.
  assert (Hrev : rev batch = rev after ++ Some u :: rev before).
  { unfold batch. rewrite rev_app_distr. simpl. by rewrite <- app_assoc. }
  rewrite Hrev, plan_app.
  set (c := Object_prototype ∪ seen h0 (rev after)).
  unfold batch in Hnd. rewrite omap_app, omap_id_cons_some in Hnd.
  apply NoDup_app in Hnd as (Hb & Hdisj & Hnd').
  apply NoDup_cons in Hnd' as [Hu_after Hnd_after].
  assert (Hu_before : u ∉ omap id before).
  { intros Hin. apply (Hdisj u Hin). by left. }
  assert (Hc : join a ∉ c).
  { intros Hin. apply elem_of_union in Hin as [Hin|Hin].
    - by apply (join_not_inherited a).
    - apply elem_of_seen in Hin as (v & Hv & Hk).
      rewrite <- Permutation_rev in Hv. by apply (Hafter v). }
  assert (Hpre : forall v, v ∈ plan res h0 (rev after) Object_prototype ->
            v ∈ omap id after).
  { intros v Hv. apply plan_elem in Hv as [Hv _].
    by rewrite <- Permutation_rev in Hv. }
  assert (Hpost : forall v c', v ∈ plan res h0 (rev before) c' ->
            v ∈ omap id before
            /\ exists a', h0 !! v = Some a' /\ (join a' ∉ c')).
  { intros v c' Hv. apply plan_elem in Hv as (Hv & a' & Ha' & Hk & _).
    rewrite <- Permutation_rev in Hv. split; [done|]. by exists a'. }
  set (tail := plan res h0 (Some u :: rev before) c).
  assert (Htail : tail = if ResourceCache.isResourceLoaded res (UrlArr a) true
                         then plan res h0 (rev before) ({[ join a ]} ∪ c)
                         else u :: plan res h0 (rev before) ({[ join a ]} ∪ c)).
  { unfold tail. cbn [plan]. rewrite Ha.
    by rewrite (bool_decide_eq_false_2 _ Hc). }
  set (us := plan res h0 (rev after) Object_prototype ++ tail).
  destruct (fetched_loads res h0 us) as [Hf _].
  { intros v Hv. unfold us in Hv. apply elem_of_app in Hv as [Hv|Hv].
    - apply plan_elem in Hv as (_ & a' & Ha' & _). by eexists.
    - apply plan_elem in Hv as (_ & a' & Ha' & _). by eexists. }
  eexists. split; [reflexivity|]. rewrite Hf. split.
  - unfold us. rewrite elem_of_app, Htail. split.
    + intros [Hin|Hin].
      * exfalso. by apply Hu_after, Hpre.
      * destruct (ResourceCache.isResourceLoaded res (UrlArr a) true); [|done].
        exfalso. by apply Hu_before, (Hpost u _ Hin).
    + intros ->. right. by left.
  - intros v Hv Hk Hin. unfold us in Hin.
    apply elem_of_app in Hin as [Hin|Hin].
    + apply (Hdisj v Hv). right. by apply Hpre.
    + rewrite Htail in Hin.
      assert (Hin' : v ∈ plan res h0 (rev before) ({[ join a ]} ∪ c)).
      { destruct (ResourceCache.isResourceLoaded res (UrlArr a) true); [done|].
        apply elem_of_cons in Hin as [->|Hin]; [done|done]. }
      destruct (Hpost v _ Hin') as (_ & a' & Ha' & Hk').
      unfold key_at in Hk. rewrite Ha' in Hk. simpl in Hk. injection Hk as Hk.
      apply Hk'. rewrite Hk. apply elem_of_union. left. by apply elem_of_singleton.
Qed.

(** What [loadResources] does to the arrays of the batch, for a renderer
    with a layer and a batch whose entries are distinct array objects.
    An array that is sent holds afterwards what was sent ([request_sent]:
    in a browser the size hints of an svg doubled in place); every other
    array of the heap is as before; no identifier changes.  (The same svg
    array twice in a batch is sent twice and ends with its hints doubled
    twice: see [loadResources_same_array_twice].) *)
Theorem loadResources_rewrites_only_sent_hints :
  forall (st : State) (l : Layer.t) (batch : list (option nat)),
    layer (self st) = Some l -> NoDup (omap id batch) ->
    exists evs st',
      loadResources batch st = (Ok (Pending <$> fetched evs), st')
      /\ trace st' = trace st ++ evs
      /\ length (heap st') = length (heap st)
      /\ (forall v, heap st' !! v
                    = if bool_decide (v ∈ fetched evs)
                      then request_sent <$> heap st !! v
                      else heap st !! v)
      /\ (forall v, url0 <$> heap st' !! v = url0 <$> heap st !! v)
      /\ (forall u x, loadImage u x ∈ evs -> heap st' !! u = Some x).
Proof.
  intros st l batch Hl Hnd.
  rewrite (loadResources_run st l batch Hl Hnd). cbv zeta.
  set (res := from_option id ResourceCache.new (resources (self st))).
  set (us := if isArrayHasData (length batch) then _ else []).
  destruct (fetched_loads res (heap st) us) as [Hf _].
  { intros u Hu. unfold us in Hu. destruct (isArrayHasData (length batch)).
    - apply plan_elem in Hu as (_ & a & Ha & _). by eexists.
    - by apply elem_of_nil in Hu. }
  assert (Hlook : forall v, heap_after (heap st) (heap st) us !! v
                    = if bool_decide (v ∈ us)
                      then request_sent <$> heap st !! v
                      else heap st !! v)
    by (intros v; by apply heap_after_lookup).
  eexists. eexists. rewrite Hf. split; [reflexivity|]. cbn [heap trace].
  split; [done|]. split; [apply heap_after_length|]. split; [exact Hlook|].
  split.
  - intros v. rewrite Hlook. case_bool_decide; [|done].
    destruct (heap st !! v) as [a|]; simpl; [|done].
    by rewrite request_sent_url0.
  - intros u x Hin. apply elem_of_loads in Hin as (Hu & a & Ha & ->).
    rewrite Hlook, bool_decide_eq_true_2 by done. by rewrite Ha.
Qed.

End CanvasRenderer_facts.

(** * Properties of the other methods *)

Section CanvasRendererMore_facts.
Context `{!Imports} `{!Subclass} `{!MoreImports}.
Import CanvasRenderer CanvasRendererMore.

(** ** The canvas *)

(** The canvas is allocated once, at the size of the map times the pixel
    ratio, together with its context (scaled by the ratio on a retina
    display); a second [createCanvas] does nothing. *)
Theorem createCanvas_allocates_once :
  forall (st : State) (l : Layer.t) (map : Map.t),
    layer (self st) = Some l -> Layer.getMap l = Some map ->
    canvas (self st) = None -> onCanvasCreate = None ->
    let ratio := if retina then 2 else 1 in
    exists st',
      createCanvas st = (Ok tt, st')
      /\ canvas (self st')
         = Some {| Canvas.width := ratio * Size.width (Map.getSize map);
                   Canvas.height := ratio * Size.height (Map.getSize map) |}
      /\ is_Some (context (self st'))
      /\ trace st' = trace st
           ++ Canvas2D_createCanvas (ratio * Size.width (Map.getSize map))
                                    (ratio * Size.height (Map.getSize map))
              :: (if retina then [context_scale 2 2] else [])
      /\ createCanvas st' = (Ok tt, st').
Proof.
  intros st l map Hl Hm Hc Hhook ratio.
  unfold createCanvas, mbind, M_bind, this, update, call, when_defined, getMap; simpl.
  rewrite Hc, Hl, Hm, Hhook; simpl. unfold ratio.
  destruct st as [[la b1 b2 b3 b4 b5 b6 cl ca cx rz ex nw me re] hp tr];
    simpl in *; subst.
  destruct retina; simpl; eexists; (split; [reflexivity|]); simpl;
    rewrite <- ?app_assoc; repeat split; by eexists.
Qed.

Lemma resizeCanvas_without_canvas (st : State) (size : option Size.t) :
  canvas (self st) = None -> resizeCanvas size st = (Ok tt, st).
Proof.
  intros Hc. unfold resizeCanvas, mbind, M_bind, this; simpl. by rewrite Hc.
Qed.

(** [resizeCanvas(size)] brings the canvas to [size] times the pixel
    ratio.  When it already has these dimensions nothing happens at all;
    otherwise the dimensions are set and, on a retina display, the scale
    is applied again.  Resizing twice to the same size is resizing once. *)
Theorem resizeCanvas_to_size :
  forall (st : State) (c : Canvas.t) (size : Size.t),
    canvas (self st) = Some c -> is_Some (context (self st)) ->
    let ratio := if retina then 2 else 1 in
    let target := {| Canvas.width := ratio * Size.width size;
                     Canvas.height := ratio * Size.height size |} in
    exists st',
      resizeCanvas (Some size) st = (Ok tt, st')
      /\ canvas (self st') = Some target
      /\ (c = target -> st' = st)
      /\ (c <> target ->
          trace st' = trace st ++ (if retina then [context_scale 2 2] else []))
      /\ resizeCanvas (Some size) st' = (Ok tt, st').
Proof.
  intros st c size Hc [ctx Hx] ratio target.
  assert (Hsame : forall st0 : State,
            canvas (self st0) = Some target ->
            resizeCanvas (Some size) st0 = (Ok tt, st0)).
  { intros st0 Hst0. unfold resizeCanvas, mbind, M_bind, this, mret, M_ret; simpl.
    rewrite Hst0; simpl. fold ratio. by rewrite !Z.eqb_refl. }
  destruct ((Canvas.width c =? ratio * Size.width size)
            && (Canvas.height c =? ratio * Size.height size)) eqn:Heq.
  - assert (c = target) as ->.
    { apply andb_true_iff in Heq as [Hw Hh].
      apply Z.eqb_eq in Hw, Hh. destruct c; simpl in *. unfold target. by f_equal. }
    exists st. rewrite (Hsame st Hc). repeat split; done.
  - assert (Hne : c <> target).
    { intros ->. unfold target in Heq; simpl in Heq. by rewrite !Z.eqb_refl in Heq. }
    unfold resizeCanvas, mbind, M_bind, this, mret, M_ret, update, call; simpl.
    rewrite Hc, Hx; simpl. fold ratio. rewrite Heq.
    try rewrite bool_decide_eq_true_2 by (by eexists).
    destruct st as [[la b1 b2 b3 b4 b5 b6 cl ca cx rz ex nw me re] hp tr];
      simpl in *; subst.
    unfold ratio in *.
    destruct retina; simpl; eexists; (split; [reflexivity|]); simpl;
      (split; [reflexivity|]); (split; [done|]);
      (split; [intros _; by rewrite ?app_nil_r|]);
      by rewrite !Z.eqb_refl.
Qed.


Lemma resizeCanvas_to_map (st : State) (l : Layer.t) (map : Map.t) (c : Canvas.t) :
  layer (self st) = Some l -> Layer.getMap l = Some map ->
  canvas (self st) = Some c -> is_Some (context (self st)) ->
  let ratio := if retina then 2 else 1 in
  let target := {| Canvas.width := ratio * Size.width (Map.getSize map);
                   Canvas.height := ratio * Size.height (Map.getSize map) |} in
  exists evs,
    resizeCanvas None st
    = (Ok tt, {| self := set_canvas (Some target) (self st);
                 heap := heap st; trace := trace st ++ evs |}).
Proof.
  intros Hl Hm Hc [ctx Hx] ratio target.
  unfold resizeCanvas, mbind, M_bind, this, mret, M_ret, update, call, getMap; simpl.
  rewrite Hc, Hl, Hm, Hx; simpl. fold ratio.
  destruct ((Canvas.width c =? ratio * Size.width (Map.getSize map))
            && (Canvas.height c =? ratio * Size.height (Map.getSize map))) eqn:Heq.
  - assert (c = target) as ->.
    { apply andb_true_iff in Heq as [Hw Hh].
      apply Z.eqb_eq in Hw, Hh. destruct c; simpl in *. unfold target. by f_equal. }
    exists []. rewrite app_nil_r. f_equal.
    destruct st as [[la b1 b2 b3 b4 b5 b6 cl ca cx rz ex nw me re] hp tr];
      simpl in *; by subst.
  - unfold ratio. destruct retina; simpl.
    + by exists [context_scale 2 2].
    + exists []. by rewrite app_nil_r.
Qed.

(** ** The image handed to the map *)

Lemma getCanvasImage_eq (st : State) (l : Layer.t) (map : Map.t) :
  layer (self st) = Some l -> Layer.getMap l = Some map ->
  getCanvasImage st =
    (Ok match canvas (self st), _extent2D (self st) with
        | Some c, Some extent =>
            if bool_decide (_renderZoom (self st) = Some (Map.getZoom map))
               && _painted (self st)
               && negb (from_option id false (Layer.isEmpty l))
            then Some {| CanvasImage.image := c;
                         CanvasImage.layer := l;
                         CanvasImage.point :=
                           _pointToContainerPoint map (_northWest (self st));
                         CanvasImage.size := PointExtent_getSize extent |}
            else None
        | _, _ => None
        end,
     {| self := set_canvasUpdated false (self st);
        heap := heap st; trace := trace st |}).
Proof.
  intros Hl Hm.
  unfold getCanvasImage, mbind, M_bind, this, mret, M_ret, update, getMap, isBlank; simpl.
  destruct st as [[la b1 b2 b3 b4 b5 b6 cl ca cx rz ex nw me re] hp tr];
    simpl in *; subst. rewrite Hm.
  destruct ca as [c|], ex as [e|]; simpl; try done.
  destruct (bool_decide (rz = Some (Map.getZoom map))); simpl; [|done].
  destruct b5; simpl; [|done].
  by destruct (from_option id false (Layer.isEmpty l)).
Qed.

(** [getCanvasImage] never hands out a stale or blank bitmap: when it
    returns an image, the layer is on a map whose zoom is the one of the
    last render, the canvas has been painted, the layer is not empty, and
    the image is the canvas of the renderer.  The call consumes the
    canvas-updated flag and leaves no trace. *)
Theorem getCanvasImage_only_current_painted :
  forall (st st' : State) (img : CanvasImage.t),
    getCanvasImage st = (Ok (Some img), st') ->
    exists map,
      getMap (self st) = Some map
      /\ _renderZoom (self st) = Some (Map.getZoom map)
      /\ _painted (self st) = true
      /\ layer (self st) = Some (CanvasImage.layer img)
      /\ from_option id false (Layer.isEmpty (CanvasImage.layer img)) = false
      /\ canvas (self st) = Some (CanvasImage.image img)
      /\ is_Some (_extent2D (self st))
      /\ isCanvasUpdated (self st') = false
      /\ trace st' = trace st.
Proof.
  intros st st' img Hrun.
  destruct (layer (self st)) as [l|] eqn:Hl.
  - destruct (Layer.getMap l) as [map|] eqn:Hm.
    + rewrite (getCanvasImage_eq st l map Hl Hm) in Hrun.
      injection Hrun as Himg <-.
      exists map. unfold getMap. rewrite Hl.
      destruct (canvas (self st)) as [c|], (_extent2D (self st)) as [e|]; try done.
      destruct (bool_decide (_renderZoom (self st) = Some (Map.getZoom map))) eqn:Hz;
        simpl in Himg; [|done].
      destruct (_painted (self st)); simpl in Himg; [|done].
      destruct (from_option id false (Layer.isEmpty l)) eqn:He; simpl in Himg; [done|].
      injection Himg as <-. simpl.
      apply bool_decide_eq_true in Hz.
      repeat split; first [done | by eexists | by destruct (self st)].
    + exfalso. revert Hrun.
      unfold getCanvasImage, mbind, M_bind, this, update, getMap; simpl.
      destruct (self st) as [la b1 b2 b3 b4 b5 b6 cl ca cx rz ex nw me re];
        simpl in *; subst. by rewrite Hm.
  - exfalso. revert Hrun.
    unfold getCanvasImage, mbind, M_bind, this, update, getMap; simpl.
    destruct (self st) as [la b1 b2 b3 b4 b5 b6 cl ca cx rz ex nw me re];
      simpl in *; by subst.
Qed.

(** A resize invalidates what was rendered.  After [onResize] the view
    extent is forgotten, so [getCanvasImage] returns [null] until the next
    render; the canvas, if there is one, has the size of the map times the
    pixel ratio; and [needToRedraw] is true unless a load is outstanding. *)
Theorem onResize_invalidates :
  forall (st : State) (l : Layer.t) (map : Map.t),
    layer (self st) = Some l -> Layer.getMap l = Some map ->
    (is_Some (canvas (self st)) -> is_Some (context (self st))) ->
    let ratio := if retina then 2 else 1 in
    exists st',
      onResize st = (Ok tt, st')
      /\ _extent2D (self st') = None
      /\ (getCanvasImage st').1 = Ok None
      /\ needToRedraw (self st') = Ok (negb (_loadingResource (self st)))
      /\ (is_Some (canvas (self st)) ->
          canvas (self st')
          = Some {| Canvas.width := ratio * Size.width (Map.getSize map);
                    Canvas.height := ratio * Size.height (Map.getSize map) |}).
Proof.
  intros st l map Hl Hm Hctx ratio.
  set (st1 := {| self := set_extent2D None (self st);
                 heap := heap st; trace := trace st |}).
  assert (Hl1 : layer (self st1) = Some l) by (unfold st1; simpl; by destruct (self st)).
  assert (exists st2,
            resizeCanvas None st1 = (Ok tt, st2)
            /\ layer (self st2) = Some l
            /\ _extent2D (self st2) = None
            /\ _loadingResource (self st2) = _loadingResource (self st)
            /\ (is_Some (canvas (self st)) ->
                canvas (self st2)
                = Some {| Canvas.width := ratio * Size.width (Map.getSize map);
                          Canvas.height := ratio * Size.height (Map.getSize map) |}))
    as (st2 & Hrun & Hl2 & He2 & Hld2 & Hc2).
  { destruct (canvas (self st)) as [c|] eqn:Hc.
    - destruct (resizeCanvas_to_map st1 l map c) as [evs Hr]; try done.
      + unfold st1; simpl. by destruct (self st).
      + unfold st1; simpl. destruct (Hctx (ltac:(by eexists))) as [ctx Hx].
        exists ctx. by destruct (self st).
      + eexists. split; [exact Hr|]. unfold st1; simpl.
        destruct (self st); simpl in *; by subst.
    - exists st1. rewrite resizeCanvas_without_canvas.
      + unfold st1; simpl. repeat split; try (by destruct (self st));
          try (by intros [? ?]).
      + unfold st1; simpl. by destruct (self st). }
  unfold onResize.
  rewrite (bind_ok (update (set_extent2D None)) _ st st1 tt) by done.
  rewrite (bind_ok _ _ st1 st2 tt Hrun).
  eexists. split; [reflexivity|]. simpl.
  split; [by destruct (self st2)|]. split; [|split].
  - rewrite (getCanvasImage_eq _ l map); simpl.
    + destruct (self st2); simpl in *; subst. by destruct canvas0.
    + by destruct (self st2).
    + done.
  - unfold needToRedraw. rewrite <- Hld2.
    destruct (self st2) as [? ld ? ? ? ? ? ? ? ? ? ? ? ? ?]; simpl.
    by destruct ld.
  - intros Hc. rewrite <- (Hc2 Hc). by destruct (self st2).
Qed.

(** Which map events invalidate the layer.  The end of a zoom, of a move
    and of a rotation ask for a redraw and do nothing else; [_resize]
    forgets the view extent; the other events leave the renderer as it
    is. *)
Theorem getEvents_invalidation :
  forall (e : MapEvent) (st : State),
    let st' := (getEvents e st).2 in
    match e with
    | _zoomend | _moveend | _dragrotateend =>
        getEvents e st
        = (Ok tt, {| self := setToRedraw (self st); heap := heap st; trace := trace st |})
        /\ needToRedraw (self st') = Ok (negb (_loadingResource (self st)))
    | _resize => _extent2D (self st') = None
    | _ => getEvents e st = (Ok tt, st)
    end.
Proof.
  assert (Hneed : forall r, needToRedraw (setToRedraw r) = Ok (negb (_loadingResource r))).
  { intros r. unfold needToRedraw.
    destruct r as [? ld ? ? ? ? ? ? ? ? ? ? ? ? ?]; simpl. by destruct ld. }
  intros e st. destruct e; cbv zeta; try done; try (split; [done|apply Hneed]).
  unfold getEvents, onResize, resizeCanvas, mbind, M_bind, this, mret, M_ret,
    update, call, throw, getMap.
  destruct st as [[la b1 b2 b3 b4 b5 b6 cl ca cx rz ex nw me re] hp tr]; simpl.
  destruct ca as [c|]; simpl; [|done].
  destruct la as [l|]; simpl; [|done].
  destruct (Layer.getMap l); simpl; [|done].
  destruct (_ && _); simpl; [done|].
  destruct retina; simpl; [|done].
  by destruct cx.
Qed.

(** ** Removal *)

(** A removed renderer is inert.  Once [remove()] has returned there is no
    layer, map, canvas, context or cache and no load counts as
    outstanding; hit detection answers false without reading, clearing,
    resizing and [completeRender] do nothing, an image that finishes
    loading afterwards is dropped, and [render()] raises. *)
Theorem remove_leaves_renderer_inert :
  forall (hook : option (M unit)) (st st' : State),
    remove hook st = (Ok tt, st') ->
    getMap (self st') = None
    /\ canvas (self st') = None /\ context (self st') = None
    /\ resources (self st') = None /\ _loadingResource (self st') = false
    /\ (forall p, hitDetect p st' = (Ok false, st'))
    /\ completeRender st' = (Ok tt, st')
    /\ clearCanvas st' = (Ok tt, st')
    /\ (forall size, resizeCanvas size st' = (Ok tt, st'))
    /\ (forall u img, img_onload u img st' = (Ok tt, st'))
    /\ (render st').1 = Throw TypeError.
Proof.
  intros hook st st' Hrun.
  assert (exists st1, st' = {| self := set_layer None (set_resources None
                                (set_extent2D None (set_context None (set_canvas None
                                   (set_northWest None
                                      (set_loadingResource false (self st1)))))));
                              heap := heap st1; trace := trace st1 |})
    as [st1 ->].
  { revert Hrun. unfold remove. unfold mbind at 1, M_bind at 1.
    destruct (when_defined hook st) as [[[]|e] st1]; [|done].
    unfold mbind, M_bind, update; simpl. intros [= <-]. by exists st1. }
  destruct st1 as [[la b1 b2 b3 b4 b5 b6 cl ca cx rz ex nw me re] hp tr].
  repeat apply conj; try done.
Qed.

(** ** When an image has loaded *)

Lemma isResourceLoaded_addResource (c : ResourceCache.t) (a : UrlArray)
    (img : Image) (checkSVG : bool) :
  ResourceCache.isResourceLoaded (ResourceCache.addResource c a img) (UrlArr a) checkSVG
  = true.
Proof.
  unfold ResourceCache.isResourceLoaded; simpl. rewrite addResource_errors.
  destruct (bool_decide (url0 a ∈ ResourceCache._errors c)); [done|].
  rewrite lookup_insert_eq; simpl.
  rewrite !js_gt_irrefl. by rewrite andb_false_r.
Qed.

Lemma img_onload_run (st : State) (l : Layer.t) (res : ResourceCache.t)
    (u : nat) (a : UrlArray) (img : Image) :
  layer (self st) = Some l -> resources (self st) = Some res ->
  heap st !! u = Some a ->
  exists stored,
    img_onload u img st
    = (Ok tt, {| self := set_resources
                           (Some (ResourceCache.addResource res a stored)) (self st);
                 heap := heap st; trace := trace st |})
    /\ (cacheSvgOnCanvas l && Nat.eqb (isSVG (url0 a)) 1 && (edge || ie) = false ->
        stored = img).
Proof.
  intros Hl Hr Ha.
  unfold img_onload, _cacheResource, mbind, M_bind, this, read_heap, update; simpl.
  rewrite Hl, Hr, Ha.
  eexists. split; [reflexivity|]. by intros ->.
Qed.

(** A loaded image is cached under the descriptor as it stands in the
    array when the load ends: afterwards the cache has an entry for its
    identifier with its two size hints as numbers, the size-aware check
    accepts the descriptor, and a further [loadResources] over the same
    array starts no load.  Heap and trace are untouched, and outside the
    Edge and IE svg case the image stored is the image loaded. *)
Theorem img_onload_caches_descriptor :
  forall (st : State) (l : Layer.t) (res : ResourceCache.t)
         (u : nat) (a : UrlArray) (img : Image),
    layer (self st) = Some l -> resources (self st) = Some res ->
    heap st !! u = Some a ->
    exists st' res' stored,
      img_onload u img st = (Ok tt, st')
      /\ resources (self st') = Some res'
      /\ ResourceCache.resources res' !! url0 a
         = Some {| ResourceCache.image := stored;
                   ResourceCache.width := to_number (url1 a);
                   ResourceCache.height := to_number (url2 a) |}
      /\ (cacheSvgOnCanvas l && Nat.eqb (isSVG (url0 a)) 1 && (edge || ie) = false ->
          stored = img)
      /\ ResourceCache.isResourceLoaded res' (UrlArr a) true = true
      /\ heap st' = heap st /\ trace st' = trace st
      /\ trace (loadResources [Some u] st').2 = trace st'.
Proof.
  intros st l res u a img Hl Hr Ha.
  destruct (img_onload_run st l res u a img Hl Hr Ha) as (stored & -> & Hst).
  eexists. exists (ResourceCache.addResource res a stored), stored.
  split; [reflexivity|]. simpl.
  split; [by destruct (self st)|].
  split; [by rewrite lookup_insert_eq|].
  split; [done|].
  split; [apply isResourceLoaded_addResource|].
  split; [done|]. split; [done|].
  rewrite (loadResources_run _ l [Some u]); simpl.
  - assert (resources (set_resources (Some (ResourceCache.addResource res a stored))
                         (self st))
            = Some (ResourceCache.addResource res a stored)) as ->
      by (by destruct (self st)).
    simpl. destruct (isArrayHasData 1); [|by rewrite app_nil_r].
    rewrite Ha. rewrite bool_decide_eq_false_2 by apply join_not_inherited.
    rewrite isResourceLoaded_addResource. simpl. by rewrite app_nil_r.
  - by destruct (self st).
  - apply NoDup_singleton.
Qed.

(** An svg requested at (w,h) in a browser is loaded and cached at
    (2w,2h): [loadResources] doubles the hints of the array before the
    load, and the entry is stored with the hints found when the load
    ends.  So after the load every request for that identifier up to
    (2w,2h) is met, and a larger one is not. *)
Theorem svg_is_cached_at_double_size :
  forall (st : State) (l : Layer.t) (u : nat) (ident : string) (w h : Z) (img : Image),
    let res := from_option id ResourceCache.new (resources (self st)) in
    let st1 := (loadResources [Some u] st).2 in
    let st2 := (img_onload u img st1).2 in
    layer (self st) = Some l ->
    heap st !! u = Some {| url0 := ident; url1 := number (Num w); url2 := number (Num h) |} ->
    isSVG ident <> 0%nat -> IS_NODE = false -> w <> 0 -> h <> 0 ->
    isArrayHasData 1 = true ->
    ResourceCache.resources res !! ident = None -> ident ∉ ResourceCache._errors res ->
    trace st1 = trace st
      ++ [loadImage u {| url0 := ident; url1 := number (Num (w * 2));
                         url2 := number (Num (h * 2)) |}]
    /\ exists res2,
         resources (self st2) = Some res2
         /\ forall w' h' : Z,
              ResourceCache.isResourceLoaded res2
                (UrlArr {| url0 := ident; url1 := number (Num w'); url2 := number (Num h') |})
                true
              = (w' <=? w * 2) && (h' <=? h * 2).
Proof.
  intros st l u ident w h img res st1 st2 Hl Ha Hsvg Hnode Hw Hh Hdata Hnone Herr.
  set (a := {| url0 := ident; url1 := number (Num w); url2 := number (Num h) |}) in *.
  set (a2 := {| url0 := ident; url1 := number (Num (w * 2)); url2 := number (Num (h * 2)) |}).
  assert (Hsent : request_sent a = a2).
  { unfold request_sent, a, a2; simpl. rewrite Hnode.
    destruct (Nat.eqb_spec (isSVG ident) 0) as [E|_]; [done|]. simpl.
    destruct (Z.eqb_spec w 0), (Z.eqb_spec h 0); try done. }
  assert (Hunmet : ResourceCache.isResourceLoaded res (UrlArr a) true = false).
  { unfold ResourceCache.isResourceLoaded, a; simpl.
    rewrite (bool_decide_eq_false_2 _ Herr). by rewrite Hnone. }
  assert (Hst1 : st1 = {| self := set_resources (Some res) (self st);
                          heap := <[u := a2]> (heap st);
                          trace := trace st ++ [loadImage u a2] |}).
  { unfold st1. rewrite (loadResources_run st l [Some u] Hl (NoDup_singleton _)).
    cbv zeta. fold res. simpl. rewrite Hdata, Ha.
    rewrite bool_decide_eq_false_2 by apply join_not_inherited.
    rewrite Hunmet. simpl.
    unfold heap_after, loads; simpl. rewrite Ha; simpl. by rewrite Hsent. }
  split; [by rewrite Hst1|].
  destruct (img_onload_run st1 l res u a2 img) as (stored & Hrun & _).
  { rewrite Hst1; simpl. by destruct (self st). }
  { rewrite Hst1; simpl. by destruct (self st). }
  { rewrite Hst1; simpl. apply list_lookup_insert_eq. by apply lookup_lt_Some in Ha. }
  exists (ResourceCache.addResource res a2 stored). split.
  - unfold st2. rewrite Hrun. simpl. by destruct (self st1).
  - intros w' h'. unfold ResourceCache.isResourceLoaded; simpl.
    rewrite (bool_decide_eq_false_2 _ Herr), lookup_insert_eq; simpl.
    destruct (Nat.eqb_spec (isSVG ident) 0) as [E|_]; [done|]; simpl.
    destruct (Z.ltb_spec (w * 2) w'), (Z.ltb_spec (h * 2) h'),
             (Z.leb_spec w' (w * 2)), (Z.leb_spec h' (h * 2)); simpl; try done; lia.
Qed.

(** ** The render cycle *)

(** The state in which [render()] reaches [_tryToDraw]. *)
Lemma render_to_tryToDraw (st : State) (l : Layer.t) (map : Map.t) :
  layer (self st) = Some l -> Layer.getMap l = Some map ->
  Layer.isVisible l = true -> checkResources = None ->
  render st =
    _tryToDraw
      {| self := set_resources
                   (Some (from_option id ResourceCache.new (resources (self st))))
                   (set_northWest (Some (Map._containerPointToPoint map))
                      (set_extent2D (Some (Map._get2DExtent map))
                         (set_renderZoom (Some (Map.getZoom map))
                            (set_renderComplete false (self st)))));
         heap := heap st; trace := trace st |}.
Proof.
  intros Hl Hm Hv Hc.
  assert (Hgm : getMap (self st) = Some map) by (unfold getMap; by rewrite Hl).
  unfold render. unfold mbind at 1, M_bind at 1.
  rewrite (prepareRender_ok st map Hgm).
  unfold mbind, M_bind, this, update, getMap; simpl.
  destruct st as [[la b1 b2 b3 b4 b5 b6 cl ca cx rz ex nw me re] hp tr];
    simpl in *; subst.
  rewrite Hm, Hv, Hc; simpl. by destruct re.
Qed.

Lemma tryToDraw_draws (st : State) (l : Layer.t) (map : Map.t) :
  layer (self st) = Some l -> Layer.getMap l = Some map ->
  (is_Some (canvas (self st)) \/ from_option id false (Layer.isEmpty l) = false) ->
  (_painted (self st) = true \/ onAdd = None) ->
  _tryToDraw st
  = draw {| self := set_painted true (set_toRedraw false (self st));
            heap := heap st; trace := trace st |}.
Proof.
  intros Hl Hm Hdraw Hadd.
  unfold _tryToDraw, _drawAndRecord, mbind, M_bind, this, update, lift,
    layer_isEmpty, getMap, when_defined, mret, M_ret; simpl.
  destruct st as [[la b1 b2 b3 b4 b5 b6 cl ca cx rz ex nw me re] hp tr];
    simpl in *; subst.
  assert (Hshort : negb (bool_decide (is_Some ca))
                   && from_option id false (Layer.isEmpty l) = false).
  { destruct Hdraw as [Hca|He].
    - by rewrite (bool_decide_eq_true_2 _ Hca).
    - rewrite He. apply andb_false_r. }
  destruct ca as [c|]; simpl in *; rewrite ?Hshort;
    (destruct Hadd as [-> | ->]; simpl; [|destruct b5; simpl]);
    rewrite ?Hm; simpl; reflexivity.
Qed.

(** What [draw] finds when [render()] calls it.  Take a visible layer on
    a map and a renderer without [checkResources] method, such that the
    renderer has a canvas or the layer is not empty (for an empty layer
    without canvas [render()] does not draw), and such that the renderer
    has been painted before or has no [onAdd] hook (the hook would run
    before [draw]).  Then [render()] is [draw] run in a state where the
    zoom, the view extent and the origin are the ones the map has now, the
    invalidation flag is cleared, the render is not yet complete and the
    canvas counts as painted; nothing was traced before [draw]. *)
Theorem render_enters_draw_prepared :
  forall (st : State) (l : Layer.t) (map : Map.t),
    layer (self st) = Some l -> Layer.getMap l = Some map ->
    Layer.isVisible l = true -> checkResources = None ->
    (is_Some (canvas (self st)) \/ from_option id false (Layer.isEmpty l) = false) ->
    (_painted (self st) = true \/ onAdd = None) ->
    exists st1,
      render st = draw st1
      /\ _renderZoom (self st1) = Some (Map.getZoom map)
      /\ _extent2D (self st1) = Some (Map._get2DExtent map)
      /\ _northWest (self st1) = Some (Map._containerPointToPoint map)
      /\ _toRedraw (self st1) = false
      /\ _renderComplete (self st1) = false
      /\ _painted (self st1) = true
      /\ is_Some (resources (self st1))
      /\ canvas (self st1) = canvas (self st)
      /\ heap st1 = heap st /\ trace st1 = trace st.
Proof.
  intros st l map Hl Hm Hv Hc Hdraw Hadd.
  rewrite (render_to_tryToDraw st l map Hl Hm Hv Hc).
  rewrite (tryToDraw_draws _ l map).
  - eexists. split; [reflexivity|]. simpl.
    destruct (self st); simpl. repeat split; by eexists.
  - simpl. by destruct (self st).
  - done.
  - simpl. destruct Hdraw as [Hca|He]; [left|by right].
    destruct (self st); simpl in *. done.
  - simpl. destruct Hadd as [Hp|Ha]; [left|by right].
    destruct (self st); simpl in *. done.
Qed.

(** A render that finds resources to load does not draw.  When
    [checkResources] returns a batch that is not empty, [render()] starts
    the loads and returns with the loading flag set, so [needToRedraw] is
    false, nothing is painted and the render is not complete.  When the
    loads have settled ([render_then]) the flag is cleared, the
    [resourceload] event is fired and [needToRedraw] is true. *)
Theorem render_waits_for_resources :
  forall (st : State) (l : Layer.t) (map : Map.t)
         (check : M (list (option nat))) (batch : list (option nat)),
    layer (self st) = Some l -> Layer.getMap l = Some map ->
    Layer.isVisible l = true ->
    checkResources = Some check -> (forall s, check s = (Ok batch, s)) ->
    batch <> [] -> NoDup (omap id batch) ->
    exists st' st'',
      render st = (Ok tt, st')
      /\ _loadingResource (self st') = true
      /\ needToRedraw (self st') = Ok false
      /\ _painted (self st') = _painted (self st)
      /\ isRenderComplete (self st') = false
      /\ render_then st' = (Ok tt, st'')
      /\ _loadingResource (self st'') = false
      /\ needToRedraw (self st'') = Ok true
      /\ trace st'' = trace st' ++ [layer_fire "resourceload"].
Proof.
  intros st l map check batch Hl Hm Hv Hc Hcheck Hne Hnd.
  assert (Hgm : getMap (self st) = Some map) by (unfold getMap; by rewrite Hl).
  assert (Hlen : (0 <? length batch)%nat = true).
  { destruct batch; [done|]. simpl. by apply Nat.ltb_lt, Nat.lt_0_succ. }
  unfold render. unfold mbind at 1, M_bind at 1.
  rewrite (prepareRender_ok st map Hgm).
  unfold mbind at 1, M_bind at 1, this at 1. cbn [self].
  set (r1 := set_northWest _ _).
  assert (Hl1 : layer r1 = Some l) by (unfold r1; by destruct (self st)).
  assert (Hgm1 : getMap r1 = Some map) by (unfold getMap; by rewrite Hl1).
  rewrite Hgm1, Hl1, Hv. cbn [negb].
  set (init := if negb (bool_decide (is_Some (resources r1))) then _ else _).
  set (r2 := set_resources
               (Some (from_option id ResourceCache.new (resources r1))) r1).
  assert (Hinit : init {| self := r1; heap := heap st; trace := trace st |}
                  = (Ok tt, {| self := r2; heap := heap st; trace := trace st |})).
  { unfold init, r2, update, mret, M_ret. destruct (resources r1) eqn:Hr; simpl.
    - do 2 f_equal. destruct r1; simpl in *; by subst.
    - done. }
  rewrite (bind_ok _ _ _ _ tt Hinit), Hc.
  rewrite (bind_ok _ _ _ _ batch (Hcheck _)), Hlen.
  set (r3 := set_loadingResource true r2).
  rewrite (bind_ok (update (set_loadingResource true)) _ _
             {| self := r3; heap := heap st; trace := trace st |} tt) by done.
  assert (Hl3 : layer r3 = Some l).
  { unfold r3, r2. by destruct r1. }
  unfold mbind at 1, M_bind at 1.
  rewrite (loadResources_run {| self := r3; heap := heap st; trace := trace st |}
             l batch Hl3 Hnd). cbv zeta. cbn [self heap trace].
  set (r4 := set_resources _ r3).
  assert (Hr4 : layer r4 = Some l /\ _loadingResource r4 = true
                /\ _painted r4 = _painted (self st) /\ _renderComplete r4 = false).
  { unfold r4, r3, r2, r1. by destruct (self st). }
  destruct Hr4 as (Hl4 & Hld4 & Hp4 & Hrc4).
  eexists. eexists. split; [reflexivity|]. cbn [self trace].
  split; [done|]. split; [unfold needToRedraw; by rewrite Hld4|].
  split; [done|]. split; [done|].
  unfold render_then, mbind, M_bind, this, update, call; simpl.
  assert (layer (set_loadingResource false r4) = Some l) as -> by (by destruct r4).
  simpl. split; [reflexivity|]. simpl.
  split; [by destruct r4|]. split; [|done].
  unfold needToRedraw. by destruct r4.
Qed.

(** The first render of a layer, from [render()] to the image the map
    composes.  For a renderer without canvas whose [draw] is
    [prepareCanvas()] followed by [completeRender()], on a visible layer
    with content and without mask: [render()] creates the canvas, fires
    [renderstart] and [renderend], and leaves the render complete and the
    canvas updated; [getCanvasImage()] then returns that canvas, placed at
    the container point of the origin captured when the render began and
    sized by the view extent captured then. *)
Theorem first_render_yields_canvas_image :
  forall (st : State) (l : Layer.t) (map : Map.t),
    layer (self st) = Some l -> Layer.getMap l = Some map ->
    Layer.isVisible l = true ->
    from_option id false (Layer.isEmpty l) = false ->
    Layer.getMask l = None ->
    canvas (self st) = None -> _clipped (self st) = false ->
    checkResources = None -> onAdd = None -> onCanvasCreate = None ->
    (forall s, draw s = (prepareCanvas ≫= fun _ => completeRender) s) ->
    let ratio := if retina then 2 else 1 in
    let c := {| Canvas.width := ratio * Size.width (Map.getSize map);
                Canvas.height := ratio * Size.height (Map.getSize map) |} in
    exists st',
      render st = (Ok tt, st')
      /\ isRenderComplete (self st') = true
      /\ isCanvasUpdated (self st') = true
      /\ _toRedraw (self st') = false
      /\ trace st' = trace st
           ++ Canvas2D_createCanvas (Canvas.width c) (Canvas.height c)
              :: (if retina then [context_scale 2 2] else [])
              ++ [layer_fire "renderstart"; layer_fire "renderend"]
      /\ (getCanvasImage st').1
         = Ok (Some {| CanvasImage.image := c;
                       CanvasImage.layer := l;
                       CanvasImage.point :=
                         _pointToContainerPoint map
                           (Some (Map._containerPointToPoint map));
                       CanvasImage.size :=
                         PointExtent_getSize (Map._get2DExtent map) |})
      /\ isCanvasUpdated (self (getCanvasImage st').2) = false.
Proof.
  intros st l map Hl Hm Hv He Hmask Hc Hcl Hcr Hadd Hhook Hdraw ratio c.
  rewrite (render_to_tryToDraw st l map Hl Hm Hv Hcr).
  rewrite (tryToDraw_draws _ l map);
    [|simpl; by destruct (self st)|done|by right|by right].
  rewrite Hdraw. cbn [self heap trace].
  set (r2 := set_painted true _).
  assert (Hr2 : layer r2 = Some l /\ canvas r2 = None /\ _clipped r2 = false
                /\ _renderZoom r2 = Some (Map.getZoom map)
                /\ _extent2D r2 = Some (Map._get2DExtent map)
                /\ _northWest r2 = Some (Map._containerPointToPoint map)
                /\ _painted r2 = true /\ _toRedraw r2 = false).
  { unfold r2. destruct (self st); simpl in *; subst. done. }
  clearbody r2. destruct Hr2 as (Hl2 & Hc2 & Hcl2 & Hz2 & He2 & Hn2 & Hp2 & Ht2).
  unfold prepareCanvas, createCanvas, completeRender, mbind, M_bind, this, update,
    call, getMap, when_defined, mret, M_ret, setCanvasUpdated; simpl.
  destruct r2 as [la b1 b2 b3 b4 b5 b6 cl ca cx rz ex nw me re];
    simpl in *; subst. simpl.
  rewrite Hm, Hhook; simpl. unfold c, ratio.
  destruct retina; simpl; rewrite Hmask; simpl; rewrite ?Hm; simpl;
    eexists; (split; [reflexivity|]); simpl;
    (split; [reflexivity|]); (split; [reflexivity|]); (split; [reflexivity|]);
    (split; [by rewrite <- ?app_assoc|]);
    unfold getCanvasImage, mbind, M_bind, this, update, getMap, isBlank, mret, M_ret;
    simpl; rewrite Hm; simpl;
    rewrite bool_decide_eq_true_2 by done; simpl; rewrite He; simpl; done.
Qed.

End CanvasRendererMore_facts.

(** * The properties on concrete inputs *)

Section Examples.
Import Sample.

(** Two requests for one identifier at two sizes: both images are loaded. *)
Lemma loadResources_identifier_fetched_twice :
  let a10 := {| url0 := "a.png"; url1 := number (Num 10); url2 := number (Num 10) |} in
  let a20 := {| url0 := "a.png"; url1 := number (Num 20); url2 := number (Num 20) |} in
  let st := start (constructor (layer_on map false None)) [a10; a20] in
  let st' := (@CanvasRenderer.loadResources browser [Some 0%nat; Some 1%nat] st).2 in
  url0 a10 = url0 a20
  /\ join a10 = "a.png-10-10"
  /\ join a20 = "a.png-20-20"
  /\ trace st' = [loadImage 1 a20; loadImage 0 a10]
  /\ occurrences "a.png" (fetched_ids (trace st')) = 2%nat.
Proof. vm_compute. repeat split. Qed.

(** Two equal descriptors in two arrays: one load. *)
Example loadResources_equal_descriptors :
  let a := {| url0 := "a.svg"; url1 := number (Num 10); url2 := number (Num 10) |} in
  let st := start (constructor (layer_on map false None)) [a; a] in
  let out := @CanvasRenderer.loadResources browser [Some 0%nat; Some 1%nat] st in
  out.1 = Ok [Pending 1]
  /\ trace out.2
     = [loadImage 1 {| url0 := "a.svg"; url1 := number (Num 20); url2 := number (Num 20) |}].
Proof. vm_compute. repeat split. Qed.

(** One array twice in the batch: starting its load doubles its size
    hints in place, so the second time its join is new and it is loaded
    again. *)
Example loadResources_same_array_twice :
  let a := {| url0 := "a.svg"; url1 := number (Num 10); url2 := number (Num 10) |} in
  let st := start (constructor (layer_on map false None)) [a] in
  let out := @CanvasRenderer.loadResources browser [Some 0%nat; Some 0%nat] st in
  fetched (trace out.2) = [0%nat; 0%nat]
  /\ heap out.2 = [{| url0 := "a.svg"; url1 := number (Num 40); url2 := number (Num 40) |}].
Proof. vm_compute. repeat split. Qed.

(** The deduplication on a batch of two equal descriptors. *)
Lemma loadResources_dedup_witness :
  let a := {| url0 := "a.png"; url1 := number (Num 10); url2 := number (Num 10) |} in
  let st := start (constructor (layer_on map false None)) [a; a] in
  let batch := [Some 0%nat; Some 1%nat] in
  NoDup (omap id batch)
  /\ exists evs,
       trace (@CanvasRenderer.loadResources browser batch st).2 = trace st ++ evs
       /\ (forall u, u ∈ fetched evs -> Some u ∈ batch)
       /\ (forall key : string,
             (occurrences (Some key) (key_at (heap st) <$> fetched evs) <= 1)%nat).
Proof.
  assert (Hnd : NoDup (omap id [Some 0%nat; Some 1%nat])).
  { apply (bool_decide_unpack _). vm_compute. exact I. }
  split; [exact Hnd|].
  exact (loadResources_dedup_by_joined_descriptor _ _ Hnd).
Defined.

(** A layer without [drawOnInteracting] is not redrawn during a zoom. *)
Lemma needToRedraw_static_layer_zooming :
  let r := idle (layer_on zooming false None) in
  @drawOnInteracting static_renderer = None
  /\ Map.isInteracting zooming = true
  /\ Map.isZooming zooming = true
  /\ _loadingResource r = false
  /\ _toRedraw r = false
  /\ @CanvasRenderer.needToRedraw static_renderer r = Ok false.
Proof. vm_compute. repeat split. Qed.

(** The redraw decision while panning and while zooming. *)
Lemma needToRedraw_interacting_witness :
  let pan := idle (layer_on panning false None) in
  let zoom := idle (layer_on zooming false None) in
  @CanvasRenderer.needToRedraw interactive_renderer pan = Ok false
  /\ @CanvasRenderer.needToRedraw static_renderer zoom = Ok false
  /\ @CanvasRenderer.needToRedraw interactive_renderer zoom = Ok true.
Proof.
  split; [|split].
  - apply (proj1 (@needToRedraw_interacting interactive_renderer
                    (idle (layer_on panning false None))
                    (layer_on panning false None) panning
                    eq_refl eq_refl eq_refl eq_refl eq_refl eq_refl));
      reflexivity.
  - apply (proj1 (proj2 (@needToRedraw_interacting static_renderer
                    (idle (layer_on zooming false None))
                    (layer_on zooming false None) zooming
                    eq_refl eq_refl eq_refl eq_refl eq_refl eq_refl)));
      reflexivity.
  - apply (proj2 (proj2 (@needToRedraw_interacting interactive_renderer
                    (idle (layer_on zooming false None))
                    (layer_on zooming false None) zooming
                    eq_refl eq_refl eq_refl eq_refl eq_refl eq_refl)));
      [reflexivity|by eexists].
Defined.

(** No redraw while loading, even with the invalidation flag set on an
    interactive renderer whose map is zooming. *)
Lemma needToRedraw_while_loading_witness :
  let r := set_loadingResource true (constructor (layer_on zooming false None)) in
  _loadingResource r = true
  /\ _toRedraw r = true
  /\ @CanvasRenderer.needToRedraw interactive_renderer r = Ok false.
Proof.
  split; [reflexivity|]. split; [reflexivity|].
  apply (@needToRedraw_while_loading interactive_renderer). reflexivity.
Defined.

(** C5 as the specification words it fails once the identifier carries
    an error marker.  An svg is cached at (10,10); a request at (20,20) is
    unmet, so a reload is started; the reload fails and the identifier is
    marked.  The entry is still the one at (10,10), and the request at
    (20,20) is now reported met. *)
Lemma isResourceLoaded_svg_marked_after_failed_reload :
  let stored := {| url0 := "marker.svg"; url1 := number (Num 10); url2 := number (Num 10) |} in
  let larger := {| url0 := "marker.svg"; url1 := number (Num 20); url2 := number (Num 20) |} in
  let c := ResourceCache.addResource ResourceCache.new stored 0%nat in
  let c' := ResourceCache.markErrorResource c (UrlArr larger) in
  @isSVG browser "marker.svg" = 1%nat
  /\ @ResourceCache.isResourceLoaded browser c (UrlArr larger) true = false
  /\ ResourceCache.resources c' !! "marker.svg"
     = Some {| ResourceCache.image := 0%nat;
               ResourceCache.width := Num 10; ResourceCache.height := Num 10 |}
  /\ @ResourceCache.isResourceLoaded browser c' (UrlArr larger) true = true.
Proof.
  split; [reflexivity|]. split; [vm_compute; reflexivity|].
  split; vm_compute; reflexivity.
Qed.

(** An svg marker cached at (10,10), no marker set. *)
Lemma isResourceLoaded_svg_size_witness :
  let entry := {| url0 := "marker.svg"; url1 := number (Num 10); url2 := number (Num 10) |} in
  let c := ResourceCache.addResource ResourceCache.new entry 0%nat in
  let request w h :=
    UrlArr {| url0 := "marker.svg"; url1 := number (Num w); url2 := number (Num h) |} in
  (@isSVG browser "marker.svg" <> 0%nat)
  /\ ("marker.svg" ∉ ResourceCache._errors ResourceCache.new)
  /\ @ResourceCache.isResourceLoaded browser c (request 20 20) true = false
  /\ @ResourceCache.isResourceLoaded browser c (request 5 5) true = true
  /\ @ResourceCache.isResourceLoaded browser c (request 10 10) true = true.
Proof.
  assert (Hsvg : @isSVG browser "marker.svg" <> 0%nat) by (vm_compute; discriminate).
  assert (Herr : "marker.svg" ∉ ResourceCache._errors ResourceCache.new)
    by (apply (bool_decide_unpack _); vm_compute; reflexivity).
  split; [exact Hsvg|]. split; [exact Herr|].
  pose proof (@isResourceLoaded_svg_size browser ResourceCache.new "marker.svg" 0%nat
                Hsvg Herr) as (H1 & H2 & H3 & _).
  exact (conj H1 (conj H2 H3)).
Defined.

(** A mask far from the view: no clip, and the extent of the mask comes
    back. *)
Lemma prepareCanvas_mask_outside_view_witness :
  let l := layer_on map false (Some far_mask) in
  let st := start (set_extent2D (Some (Map._get2DExtent map)) (constructor l)) [] in
  @intersects browser (Mask.get2DExtent far_mask) (_extent2D (self st)) = Ok false
  /\ exists st' evs,
       @CanvasRenderer.prepareCanvas browser static_renderer st
         = (Ok (Some (Mask.get2DExtent far_mask)), st')
       /\ _clipped (self st') = false
       /\ _maskExtent (self st') = Some (Mask.get2DExtent far_mask)
       /\ trace st' = trace st ++ evs
       /\ context_clip ∉ evs.
Proof.
  split; [reflexivity|].
  apply (@prepareCanvas_mask_outside_view browser static_renderer _
           (layer_on map false (Some far_mask)) far_mask).
  - reflexivity.
  - reflexivity.
  - reflexivity.
  - discriminate.
  - intros _. split; [by eexists|exact I].
Defined.

(** With a mask inside the view the canvas is clipped by it. *)
Example prepareCanvas_mask_inside_view :
  let l := layer_on map false (Some near_mask) in
  let st := start (set_extent2D (Some (Map._get2DExtent map)) (constructor l)) [] in
  let out := @CanvasRenderer.prepareCanvas browser static_renderer st in
  out.1 = Ok (Some (Mask.get2DExtent near_mask))
  /\ _clipped (self out.2) = true
  /\ trace out.2 = [Canvas2D_createCanvas 800 600; context_save; mask_paint;
                    context_clip; layer_fire "renderstart"].
Proof. vm_compute. repeat split. Qed.

(** A visible empty layer without canvas: [render()] draws nothing and
    reports the render as complete. *)
Lemma render_empty_layer_is_complete :
  let st := start (constructor (layer_on map true None)) [] in
  let out := @CanvasRenderer.render browser static_renderer st in
  out.1 = Ok tt
  /\ canvas (self out.2) = None
  /\ _painted (self out.2) = false
  /\ trace out.2 = []
  /\ CanvasRenderer.isRenderComplete (self out.2) = true.
Proof. vm_compute. repeat split. Qed.

(** The short cut of [_tryToDraw] on an empty layer. *)
Lemma renderComplete_flag_witness :
  let st := start (constructor (layer_on map true None)) [] in
  exists st',
    @CanvasRenderer._tryToDraw static_renderer st = (Ok tt, st')
    /\ CanvasRenderer.isRenderComplete (self st') = true
    /\ _painted (self st') = _painted (self st)
    /\ canvas (self st') = None
    /\ trace st' = trace st.
Proof.
  apply (proj1 (@renderComplete_flag browser static_renderer) _ (layer_on map true None));
    reflexivity.
Defined.

(** A point right of an 800 by 600 viewport is rejected unread; a point
    on its right edge is read. *)
Lemma hitDetect_outside_viewport_witness :
  let r := painted (layer_on map false None) in
  let st := start r [] in
  let point := {| Point.x := 801; Point.y := 300 |} in
  Point.x point > Size.width (Map.getSize map)
  /\ @CanvasRenderer.hitDetect browser point st = (Ok false, st)
  /\ @CanvasRenderer.hitDetect browser {| Point.x := 800; Point.y := 300 |} st
     = (Ok false, {| self := r; heap := []; trace := [context_getImageData 800 300] |}).
Proof.
  split; [reflexivity|]. split; [|reflexivity].
  apply (@hitDetect_outside_viewport browser _ map); [reflexivity|].
  right; left. reflexivity.
Defined.

(** ** The further properties on concrete inputs *)

Import SampleMore.

(** A name every object inherits reads as marked.  On a new cache the
    descriptor [constructor] is reported loaded; no image is returned for
    it, even right after [addResource]; and [loadResources] starts no
    load for it. *)
Example inherited_name_reads_as_marked :
  let a := {| url0 := "constructor"; url1 := number (Num 10); url2 := number (Num 10) |} in
  @ResourceCache.isResourceLoaded browser ResourceCache.new (UrlArr a) true = true
  /\ @ResourceCache.getImage browser
       (ResourceCache.addResource ResourceCache.new a 5%nat) (UrlArr a) = Ok None
  /\ trace (@CanvasRenderer.loadResources browser [Some 0%nat]
              (start (constructor (layer_on map false None)) [a])).2 = [].
Proof. split; [|split]; vm_compute; reflexivity. Qed.

Lemma isResourceLoaded_smaller_request_witness :
  @ResourceCache.isResourceLoaded browser svg_cache
    (UrlArr {| url0 := "marker.svg"; url1 := number (Num 4); url2 := number (Num 6) |})
    true = true.
Proof.
  apply (@isResourceLoaded_smaller_request browser svg_cache "marker.svg" 10 10 4 6);
    [reflexivity|lia|lia].
Defined.


Lemma merge_transfers_loaded_witness :
  @ResourceCache.isResourceLoaded browser
    (ResourceCache.merge failed_cache (Some svg_cache)) (UrlArr marker_svg) true = true.
Proof.
  apply (@merge_transfers_loaded browser failed_cache svg_cache (UrlArr marker_svg) true).
  - apply (bool_decide_unpack _). vm_compute. reflexivity.
  - reflexivity.
Defined.

Lemma hitDetect_taint_is_sticky_witness :
  exists st',
    @CanvasRenderer.hitDetect tainted_browser {| Point.x := 10; Point.y := 20 |}
      (start (painted (layer_on map false None)) []) = (Ok false, st')
    /\ _errorThrown (self st') = true
    /\ trace st' = [context_getImageData 10 20;
                    console_warn "hit detect failed with tainted canvas"]
    /\ forall q : Point.t, @CanvasRenderer.hitDetect tainted_browser q st' = (Ok false, st').
Proof.
  apply (@hitDetect_taint_is_sticky tainted_browser
           (start (painted (layer_on map false None)) [])
           map (layer_on map false None) {| Point.x := 10; Point.y := 20 |}
           "SecurityError"); try reflexivity.
  - by eexists.
  - simpl. lia.
  - simpl. lia.
Defined.

(** The first [prepareCanvas] of a renderer, which creates the canvas. *)
Lemma prepareCanvas_without_mask_witness :
  exists st' evs,
    @CanvasRenderer.prepareCanvas browser static_renderer
      (start (constructor (layer_on map false None)) [])
    = (Ok None, st')
    /\ _clipped (self st') = false
    /\ _maskExtent (self st') = None
    /\ trace st' = [] ++ evs ++ [layer_fire "renderstart"]
    /\ (context_save ∉ evs) /\ (context_clip ∉ evs) /\ (mask_paint ∉ evs)
    /\ (context_restore ∈ evs <-> false = true).
Proof.
  apply (@prepareCanvas_without_mask browser static_renderer
           (start (constructor (layer_on map false None)) [])
           (layer_on map false None)).
  - reflexivity.
  - reflexivity.
  - simpl. discriminate.
  - intros _. split; [by eexists|reflexivity].
Defined.

(** The same with a mask inside the view. *)
Lemma prepareCanvas_clips_to_mask_witness :
  exists st' evs,
    @CanvasRenderer.prepareCanvas browser static_renderer (first_cycle near_mask)
    = (Ok (Some (Mask.get2DExtent near_mask)), st')
    /\ _clipped (self st') = true
    /\ _maskExtent (self st') = Some (Mask.get2DExtent near_mask)
    /\ trace st' = [] ++ evs ++ [context_save; mask_paint; context_clip;
                                 layer_fire "renderstart"]
    /\ (context_save ∉ evs) /\ (context_clip ∉ evs).
Proof.
  apply (@prepareCanvas_clips_to_mask browser static_renderer
           (first_cycle near_mask) (layer_on map false (Some near_mask)) near_mask).
  - reflexivity.
  - reflexivity.
  - simpl. discriminate.
  - simpl. intros [c Hc]. discriminate Hc.
  - intros _. split; [by eexists|reflexivity].
  - reflexivity.
  - reflexivity.
Defined.

(** A mask that paints, and a mask whose painting raises. *)
Lemma prepareCanvas_keeps_saves_balanced_witness :
  let st' := (@CanvasRenderer.prepareCanvas browser static_renderer
                (first_cycle near_mask)).2 in
  let bad := @CanvasRenderer.prepareCanvas browser static_renderer
               (first_cycle failing_mask) in
  open_saves (trace st') = (if _clipped (self st') then 1 else 0)
  /\ bad.1 = Throw "paint"
  /\ open_saves (trace bad.2) = 1
  /\ _clipped (self bad.2) = false.
Proof.
  split.
  - destruct (@prepareCanvas_keeps_saves_balanced browser static_renderer
                (first_cycle near_mask) (layer_on map false (Some near_mask)))
      as [Hok _].
    + reflexivity.
    + simpl. discriminate.
    + intros _. split; [by eexists|reflexivity].
    + reflexivity.
    + apply Hok. intros mask (Hm & _). injection Hm as <-. reflexivity.
  - destruct (@prepareCanvas_keeps_saves_balanced browser static_renderer
                (first_cycle failing_mask) (layer_on map false (Some failing_mask)))
      as [_ Hbad].
    + reflexivity.
    + simpl. discriminate.
    + intros _. split; [by eexists|reflexivity].
    + reflexivity.
    + apply (Hbad failing_mask "paint"); [|reflexivity].
      split; [reflexivity|]. split; [reflexivity|]. by left.
Defined.

Lemma loadResources_promises_match_loads_witness :
  exists evs st',
    @CanvasRenderer.loadResources browser [Some 0%nat; None; Some 1%nat] caching
    = (Ok (Pending <$> fetched evs), st')
    /\ trace st' = trace caching ++ evs
    /\ length evs = length (fetched evs)
    /\ self st' = set_resources
                    (Some (default ResourceCache.new (resources (self caching))))
                    (self caching).
Proof.
  apply (@loadResources_promises_match_loads browser caching
           (layer_on map false None) [Some 0%nat; None; Some 1%nat]).
  - reflexivity.
  - apply (bool_decide_unpack _). vm_compute. reflexivity.
Defined.

Lemma loadResources_loads_only_unmet_witness :
  exists evs,
    trace (@CanvasRenderer.loadResources browser [Some 0%nat; None; Some 1%nat] caching).2
    = trace caching ++ evs
    /\ (forall u, u ∈ fetched evs ->
          exists a, heap caching !! u = Some a
                    /\ @ResourceCache.isResourceLoaded browser svg_cache (UrlArr a) true
                       = false)
    /\ (forall u a, heap caching !! u = Some a ->
          url0 a ∈ ResourceCache._errors svg_cache -> u ∉ fetched evs).
Proof.
  apply (@loadResources_loads_only_unmet browser caching
           (layer_on map false None) [Some 0%nat; None; Some 1%nat]).
  - reflexivity.
  - apply (bool_decide_unpack _). vm_compute. reflexivity.
Defined.

(** Two arrays with the same contents: the later one is the one loaded. *)
Lemma loadResources_last_occurrence_decides_witness :
  exists evs,
    trace (@CanvasRenderer.loadResources browser [Some 0%nat; Some 1%nat]
             (start (constructor (layer_on map false None)) [marker_png; marker_png])).2
    = [] ++ evs
    /\ (1%nat ∈ fetched evs <->
        @ResourceCache.isResourceLoaded browser ResourceCache.new (UrlArr marker_png) true
        = false)
    /\ (forall v, v ∈ omap id [Some 0%nat] ->
          key_at [marker_png; marker_png] v = Some (join marker_png) ->
          v ∉ fetched evs).
Proof.
  apply (@loadResources_last_occurrence_decides browser
           (start (constructor (layer_on map false None)) [marker_png; marker_png])
           (layer_on map false None) [Some 0%nat] [] 1%nat marker_png).
  - reflexivity.
  - apply (bool_decide_unpack _). vm_compute. reflexivity.
  - reflexivity.
  - reflexivity.
  - intros v Hv. simpl in Hv. by apply elem_of_nil in Hv.
Defined.

Lemma loadResources_rewrites_only_sent_hints_witness :
  exists evs st',
    @CanvasRenderer.loadResources browser [Some 0%nat; None; Some 1%nat] caching
    = (Ok (Pending <$> fetched evs), st')
    /\ trace st' = trace caching ++ evs
    /\ length (heap st') = length (heap caching)
    /\ (forall v, heap st' !! v
                  = if bool_decide (v ∈ fetched evs)
                    then @request_sent browser <$> heap caching !! v
                    else heap caching !! v)
    /\ (forall v, url0 <$> heap st' !! v = url0 <$> heap caching !! v)
    /\ (forall u x, loadImage u x ∈ evs -> heap st' !! u = Some x).
Proof.
  apply (@loadResources_rewrites_only_sent_hints browser caching
           (layer_on map false None) [Some 0%nat; None; Some 1%nat]).
  - reflexivity.
  - apply (bool_decide_unpack _). vm_compute. reflexivity.
Defined.

Lemma createCanvas_allocates_once_witness :
  exists st',
    @CanvasRenderer.createCanvas browser static_renderer
      (start (constructor (layer_on map false None)) []) = (Ok tt, st')
    /\ canvas (self st') = Some {| Canvas.width := 800; Canvas.height := 600 |}
    /\ is_Some (context (self st'))
    /\ trace st' = [Canvas2D_createCanvas 800 600]
    /\ @CanvasRenderer.createCanvas browser static_renderer st' = (Ok tt, st').
Proof.
  apply (@createCanvas_allocates_once browser static_renderer
           (start (constructor (layer_on map false None)) [])
           (layer_on map false None) map); reflexivity.
Defined.

Lemma resizeCanvas_to_size_witness :
  exists st',
    @CanvasRendererMore.resizeCanvas browser
      (Some {| Size.width := 400; Size.height := 300 |})
      (start (painted (layer_on map false None)) []) = (Ok tt, st')
    /\ canvas (self st') = Some {| Canvas.width := 400; Canvas.height := 300 |}
    /\ @CanvasRendererMore.resizeCanvas browser
         (Some {| Size.width := 400; Size.height := 300 |}) st' = (Ok tt, st').
Proof.
  destruct (@resizeCanvas_to_size browser
              (start (painted (layer_on map false None)) [])
              {| Canvas.width := 800; Canvas.height := 600 |}
              {| Size.width := 400; Size.height := 300 |})
    as (st' & Hrun & Hc & _ & _ & Hagain).
  - reflexivity.
  - by eexists.
  - exists st'. split; [exact Hrun|]. split; [exact Hc|exact Hagain].
Defined.

Lemma getCanvasImage_only_current_painted_witness :
  exists m,
    CanvasRenderer.getMap (rendered (layer_on map false None)) = Some m
    /\ _renderZoom (rendered (layer_on map false None)) = Some (Map.getZoom m)
    /\ _painted (rendered (layer_on map false None)) = true.
Proof.
  destruct (@getCanvasImage_only_current_painted more
              (start (rendered (layer_on map false None)) [])
              (@CanvasRendererMore.getCanvasImage more
                 (start (rendered (layer_on map false None)) [])).2
              {| CanvasImage.image := {| Canvas.width := 800; Canvas.height := 600 |};
                 CanvasImage.layer := layer_on map false None;
                 CanvasImage.point := {| Point.x := 0; Point.y := 0 |};
                 CanvasImage.size := {| Size.width := 800; Size.height := 600 |} |})
    as (m & Hm & Hz & Hp & _).
  - reflexivity.
  - exists m. split; [exact Hm|]. split; [exact Hz|exact Hp].
Defined.

Lemma onResize_invalidates_witness :
  exists st',
    @CanvasRendererMore.onResize browser
      (start (rendered (layer_on map false None)) []) = (Ok tt, st')
    /\ _extent2D (self st') = None
    /\ (@CanvasRendererMore.getCanvasImage more st').1 = Ok None
    /\ @CanvasRenderer.needToRedraw static_renderer (self st') = Ok true.
Proof.
  destruct (@onResize_invalidates browser static_renderer more
              (start (rendered (layer_on map false None)) [])
              (layer_on map false None) map)
    as (st' & Hrun & He & Hi & Hn & _).
  - reflexivity.
  - reflexivity.
  - intros _. by eexists.
  - exists st'. split; [exact Hrun|]. split; [exact He|]. split; [exact Hi|exact Hn].
Defined.

Lemma remove_leaves_renderer_inert_witness :
  let st' := (CanvasRendererMore.remove None
                (start (with_cache svg_cache (layer_on map false None)) two_markers)).2 in
  CanvasRenderer.getMap (self st') = None
  /\ canvas (self st') = None
  /\ context (self st') = None
  /\ resources (self st') = None
  /\ _loadingResource (self st') = false
  /\ (forall p, @CanvasRenderer.hitDetect browser p st' = (Ok false, st'))
  /\ CanvasRenderer.completeRender st' = (Ok tt, st')
  /\ CanvasRenderer.clearCanvas st' = (Ok tt, st')
  /\ (forall size, @CanvasRendererMore.resizeCanvas browser size st' = (Ok tt, st'))
  /\ (forall u img, @CanvasRendererMore.img_onload browser more u img st' = (Ok tt, st'))
  /\ (@CanvasRenderer.render browser static_renderer st').1 = Throw TypeError.
Proof.
  apply (@remove_leaves_renderer_inert browser static_renderer more None
           (start (with_cache svg_cache (layer_on map false None)) two_markers)).
  reflexivity.
Defined.

Lemma img_onload_caches_descriptor_witness :
  exists st' res' stored,
    @CanvasRendererMore.img_onload browser more 0%nat 7%nat caching = (Ok tt, st')
    /\ resources (self st') = Some res'
    /\ ResourceCache.resources res' !! "marker.png"
       = Some {| ResourceCache.image := stored;
                 ResourceCache.width := Num 10; ResourceCache.height := Num 10 |}
    /\ @ResourceCache.isResourceLoaded browser res' (UrlArr marker_png) true = true
    /\ trace (@CanvasRenderer.loadResources browser [Some 0%nat] st').2 = trace st'.
Proof.
  destruct (@img_onload_caches_descriptor browser more caching
              (layer_on map false None) svg_cache 0%nat marker_png 7%nat)
    as (st' & res' & stored & Hrun & Hres & Hlk & _ & Hld & _ & _ & Hno);
    try reflexivity.
  exists st', res', stored.
  split; [exact Hrun|]. split; [exact Hres|]. split; [exact Hlk|].
  split; [exact Hld|exact Hno].
Defined.

Lemma svg_is_cached_at_double_size_witness :
  let st := start (constructor (layer_on map false None)) [marker_svg] in
  let st1 := (@CanvasRenderer.loadResources browser [Some 0%nat] st).2 in
  let st2 := (@CanvasRendererMore.img_onload browser more 0%nat 7%nat st1).2 in
  trace st1 = [] ++ [loadImage 0%nat {| url0 := "marker.svg";
                                       url1 := number (Num (10 * 2));
                                       url2 := number (Num (10 * 2)) |}]
  /\ exists res2,
       resources (self st2) = Some res2
       /\ forall w' h',
            @ResourceCache.isResourceLoaded browser res2
              (UrlArr {| url0 := "marker.svg"; url1 := number (Num w');
                         url2 := number (Num h') |}) true
            = (w' <=? 10 * 2) && (h' <=? 10 * 2).
Proof.
  apply (@svg_is_cached_at_double_size browser more
           (start (constructor (layer_on map false None)) [marker_svg])
           (layer_on map false None) 0%nat "marker.svg" 10 10 7%nat);
    try reflexivity; try lia.
  - vm_compute. lia.
  - apply (bool_decide_unpack _). vm_compute. reflexivity.
Defined.

Lemma render_enters_draw_prepared_witness :
  exists st1,
    @CanvasRenderer.render browser static_renderer
      (start (constructor (layer_on map false None)) [])
    = @draw static_renderer st1
    /\ _renderZoom (self st1) = Some 10
    /\ _extent2D (self st1) = Some (Map._get2DExtent map)
    /\ _toRedraw (self st1) = false
    /\ _painted (self st1) = true
    /\ is_Some (resources (self st1)).
Proof.
  destruct (@render_enters_draw_prepared browser static_renderer
              (start (constructor (layer_on map false None)) [])
              (layer_on map false None) map)
    as (st1 & Hrun & Hz & He & _ & Hr & _ & Hp & Hres & _); try reflexivity.
  - by right.
  - by right.
  - exists st1. split; [exact Hrun|]. split; [exact Hz|]. split; [exact He|].
    split; [exact Hr|]. split; [exact Hp|exact Hres].
Defined.

Lemma render_waits_for_resources_witness :
  exists st' st'',
    @CanvasRenderer.render browser loading_renderer
      (start (constructor (layer_on map false None)) [marker_png]) = (Ok tt, st')
    /\ _loadingResource (self st') = true
    /\ @CanvasRenderer.needToRedraw loading_renderer (self st') = Ok false
    /\ _painted (self st') = false
    /\ CanvasRenderer.isRenderComplete (self st') = false
    /\ CanvasRenderer.render_then st' = (Ok tt, st'')
    /\ _loadingResource (self st'') = false
    /\ @CanvasRenderer.needToRedraw loading_renderer (self st'') = Ok true
    /\ trace st'' = trace st' ++ [layer_fire "resourceload"].
Proof.
  apply (@render_waits_for_resources browser loading_renderer
           (start (constructor (layer_on map false None)) [marker_png])
           (layer_on map false None) map
           (fun s => (Ok [Some 0%nat], s)) [Some 0%nat]); try reflexivity.
  - discriminate.
  - apply (bool_decide_unpack _). vm_compute. reflexivity.
Defined.

Lemma first_render_yields_canvas_image_witness :
  exists st',
    @CanvasRenderer.render browser drawing_renderer
      (start (constructor (layer_on map false None)) []) = (Ok tt, st')
    /\ CanvasRenderer.isRenderComplete (self st') = true
    /\ CanvasRenderer.isCanvasUpdated (self st') = true
    /\ _toRedraw (self st') = false
    /\ trace st' = [Canvas2D_createCanvas 800 600; layer_fire "renderstart";
                    layer_fire "renderend"].
Proof.
  destruct (@first_render_yields_canvas_image browser drawing_renderer more
              (start (constructor (layer_on map false None)) [])
              (layer_on map false None) map)
    as (st' & Hrun & Hc & Hu & Hr & Htr & _); try reflexivity.
  exists st'. split; [exact Hrun|]. split; [exact Hc|]. split; [exact Hu|].
  split; [exact Hr|exact Htr].
Defined.

End Examples.
